(** * Statistical performance validation: a shallow embedding

    This development embeds the statistics engine of
    [validate_performance.py] (class [PerformanceValidator]) and proves the
    properties its specification states about it.

    Modelling conventions.
    - Python [float] values are idealised as real numbers ([R]): rounding,
      infinities and NaN are outside that model.  Python [int] values are
      [Z] (list lengths are [nat], converted where the code does arithmetic
      on them).  The properties stated over [R] are those that do not depend
      on the arithmetic being exact.
    - Where rounding decides a property (the order of the interpolated
      percentiles), the functions concerned are also embedded over IEEE 754
      binary64 numbers, in module [B64], and evaluated there.
    - An exception is a value of [PyError]; a computation that may raise
      returns a [result].  A method that also reads or writes [self] is a
      function from the validator to a result paired with the validator as
      the call leaves it, so the state written before an exception is raised
      stays visible.
    - The functions the code imports from Python's standard library
      ([statistics.mean], [statistics.median], [statistics.stdev], [sorted],
      [min], [max], [math.sqrt], [math.tanh], [abs], [int], list indexing) are
      modelled by their documented behaviour, including the exceptions they
      raise. *)

From Stdlib Require Floats.
From Stdlib Require Import String DecimalString.
From Stdlib Require Import Reals Lra Lia ZArith Bool List.
From Stdlib Require Import Sorting.Sorted Sorting.Permutation.
Import ListNotations.

Open Scope R_scope.

(** ** Exceptions and the two monads *)

Inductive PyError : Type :=
| ValueError (msg : string)
| StatisticsError
| IndexError
| ZeroDivisionError
| OverflowError.

Inductive result (A : Type) : Type :=
| Ok (a : A)
| Raise (e : PyError).

Arguments Ok {A} a.
Arguments Raise {A} e.

Definition rbind {A B : Type} (m : result A) (k : A -> result B) : result B :=
  match m with
  | Ok a => k a
  | Raise e => Raise e
  end.

Declare Scope py_scope.
Delimit Scope py_scope with py.
Notation "x <- m ;; k" := (rbind m (fun x => k))
  (at level 61, m at next level, right associativity) : py_scope.
Notation "' pat <- m ;; k" := (rbind m (fun x => match x with pat => k end))
  (at level 61, pat pattern, m at next level, right associativity) : py_scope.

(** ** Python builtins used by the validator *)

Module Py.

Definition Rltb (x y : R) : bool := if Rlt_dec x y then true else false.
Definition Rleb (x y : R) : bool := if Rle_dec x y then true else false.
Definition Reqb (x y : R) : bool := if Req_dec_T x y then true else false.

(** [x / y] on floats. *)
Definition div (x y : R) : result R :=
  if Reqb y 0 then Raise ZeroDivisionError else Ok (x / y).

(** [math.sqrt]. *)
Definition sqrt (x : R) : result R :=
  if Rltb x 0 then Raise (ValueError "math domain error") else Ok (sqrt x).

(** [int(x)] on a float: truncation towards zero. *)
Definition int (x : R) : Z :=
  if Rleb 0 x then Zfloor x else (- Zfloor (- x))%Z.

(** [l[i]]: a negative index counts from the end, an index out of range
    raises [IndexError]. *)
Definition index (l : list R) (i : Z) : result R :=
  let n := Z.of_nat (length l) in
  let j := if (i <? 0)%Z then (i + n)%Z else i in
  if ((0 <=? j) && (j <? n))%bool%Z
  then match nth_error l (Z.to_nat j) with
       | Some v => Ok v
       | None => Raise IndexError
       end
  else Raise IndexError.

(** [sum(l)]. *)
Definition sum (l : list R) : R := fold_right Rplus 0 l.

(** [min(l)] and [max(l)]; both raise [ValueError] on an empty list. *)
Definition min (l : list R) : result R :=
  match l with
  | [] => Raise (ValueError "min() arg is an empty sequence")
  | x :: t => Ok (fold_left Rmin t x)
  end.

Definition max (l : list R) : result R :=
  match l with
  | [] => Raise (ValueError "max() arg is an empty sequence")
  | x :: t => Ok (fold_left Rmax t x)
  end.

(** [sorted(l)]: the ascending rearrangement of [l]. *)
Fixpoint insert (x : R) (l : list R) : list R :=
  match l with
  | [] => [x]
  | y :: t => if Rleb x y then x :: y :: t else y :: insert x t
  end.

Definition sorted (l : list R) : list R := fold_right insert [] l.

(** [len(l)]. *)
Definition len (l : list R) : Z := Z.of_nat (length l).

(** [str(n)] for an [int], as an f-string renders it. *)
Definition str (n : Z) : string := NilZero.string_of_int (Z.to_int n).

End Py.

(** ** The [statistics] module *)

Module statistics.

Open Scope py_scope.

(** [statistics.mean]. *)
Definition mean (data : list R) : result R :=
  match data with
  | [] => Raise StatisticsError
  | _ => Ok (Py.sum data / INR (length data))
  end.

(** [statistics.median]: the middle element of the sorted data, or the
    average of the two middle elements. *)
Definition median (data : list R) : result R :=
  let data := Py.sorted data in
  let n := length data in
  if (n =? 0)%nat then Raise StatisticsError
  else
    let i := Z.of_nat (n / 2) in
    if (n mod 2 =? 1)%nat then Py.index data i
    else
      a <- Py.index data (i - 1) ;;
      b <- Py.index data i ;;
      Ok ((a + b) / 2).

(** Sum of squared deviations about [c]. *)
Definition ss (c : R) (data : list R) : R :=
  Py.sum (map (fun x => (x - c) ^ 2) data).

(** [statistics.variance]: the sample variance (divides by [n - 1]). *)
Definition variance (data : list R) : result R :=
  let n := length data in
  if (n <? 2)%nat then Raise StatisticsError
  else
    c <- mean data ;;
    Ok (ss c data / INR (n - 1)).

(** [statistics.stdev]. *)
Definition stdev (data : list R) : result R :=
  v <- variance data ;;
  Py.sqrt v.

End statistics.


(** ** The validator's state and the monad of its methods *)

Inductive Condition : Type := Baseline | Optimized.

(** An entry of [self.violations].  The sample-size messages are kept as the
    text the f-string builds.  The text of a variability message embeds the
    coefficient of variation printed with [:.3f]; that rendering of a float
    is kept symbolic: the entry records which message it is and the value
    that is printed. *)
Inductive Violation : Type :=
| Message (text : string)
| HighVariability (side : Condition) (cv : R).

Record PerformanceValidator : Type := mkValidator {
  strict_mode : bool;
  violations : list Violation
}.

(** [PerformanceValidator(strict_mode)]. *)
Definition __init__ (strict : bool) : PerformanceValidator :=
  {| strict_mode := strict; violations := [] |}.

Definition M (A : Type) : Type :=
  PerformanceValidator -> result A * PerformanceValidator.

Definition ret {A : Type} (a : A) : M A := fun self => (Ok a, self).

Definition bind {A B : Type} (m : M A) (k : A -> M B) : M B :=
  fun self =>
    match m self with
    | (Ok a, self') => k a self'
    | (Raise e, self') => (Raise e, self')
    end.

(** A computation that does not touch [self]. *)
Definition lift {A : Type} (m : result A) : M A := fun self => (m, self).

(** [self.violations = vs] and [self.violations.append(v)]. *)
Definition set_violations (vs : list Violation) : M unit :=
  fun self => (Ok tt, {| strict_mode := strict_mode self; violations := vs |}).

Definition append_violation (v : Violation) : M unit :=
  fun self => (Ok tt, {| strict_mode := strict_mode self;
                         violations := violations self ++ [v] |}).

Declare Scope self_scope.
Delimit Scope self_scope with self.
Notation "x <- m ;; k" := (bind m (fun x => k))
  (at level 61, m at next level, right associativity) : self_scope.
Notation "m ;; k" := (bind m (fun _ => k))
  (at level 61, right associativity) : self_scope.

(** ** The records the validator returns *)

Record StatisticalSummary : Type := mkSummary {
  sample_size : Z;
  mean : R;
  median : R;
  std_dev : R;
  min_val : R;
  max_val : R;
  p25 : R;
  p75 : R;
  p95 : R;
  p99 : R;
  confidence_interval_95 : R * R;
  coefficient_variation : R
}.

(** The field [cohens_d] of the dataclass is [cohens_d_value] here: the
    name [cohens_d] is kept for the method that computes it. *)
Record ComparisonResult : Type := mkComparison {
  baseline_stats : StatisticalSummary;
  optimized_stats : StatisticalSummary;
  improvement_percent : R;
  improvement_absolute : R;
  p_value : R;
  cohens_d_value : R;
  confidence_interval_diff : R * R;
  statistical_significance : bool;
  practical_significance : bool;
  sample_adequate : bool
}.

(** ** Class [PerformanceValidator] *)

(** Statistical requirements (class attributes). *)
Definition MIN_SAMPLE_SIZE : Z := 30.
Definition SIGNIFICANCE_LEVEL : R := 0.05.
Definition MIN_EFFECT_SIZE : R := 0.5.
Definition CONFIDENCE_LEVEL : R := 0.95.
Definition MAX_CV : R := 0.3.

Definition EMPTY_DATASET : PyError :=
  ValueError "Cannot calculate statistics for empty dataset".

(** The text of the sample-size violation. *)
Definition insufficient_sample_size (n : Z) : Violation :=
  Message ("Insufficient sample size: " ++ Py.str n ++ " < "
           ++ Py.str MIN_SAMPLE_SIZE).

Definition validate_sample_size (n : Z) : M bool :=
  (if (n <? MIN_SAMPLE_SIZE)%Z
   then append_violation (insufficient_sample_size n) ;; ret false
   else ret true)%self.

Definition _percentile (sorted_values : list R) (percentile : R) : result R :=
  match sorted_values with
  | [] => Ok 0
  | _ =>
    let n := Py.len sorted_values in
    if (n =? 1)%Z then Py.index sorted_values 0
    else
      let rank := (percentile / 100) * IZR (n - 1) in
      let lower_idx := Py.int rank in
      let upper_idx := Z.min (lower_idx + 1) (n - 1) in
      if (lower_idx =? upper_idx)%Z then Py.index sorted_values lower_idx
      else
        let weight := rank - IZR lower_idx in
        (lo <- Py.index sorted_values lower_idx ;;
         hi <- Py.index sorted_values upper_idx ;;
         Ok (lo * (1 - weight) + hi * weight))%py
  end.

Definition calculate_statistics (values : list R) : result StatisticalSummary :=
  match values with
  | [] => Raise EMPTY_DATASET
  | _ =>
    let n := Py.len values in
    (mean_val <- statistics.mean values ;;
     median_val <- statistics.median values ;;
     std_dev <- (if (1 <? n)%Z then statistics.stdev values else Ok 0) ;;
     let sorted_vals := Py.sorted values in
     p25 <- _percentile sorted_vals 25 ;;
     p75 <- _percentile sorted_vals 75 ;;
     p95 <- _percentile sorted_vals 95 ;;
     p99 <- _percentile sorted_vals 99 ;;
     ci <- (if (1 <? n)%Z
            then root <- Py.sqrt (IZR n) ;;
                 q <- Py.div std_dev root ;;
                 let margin_error := 1.96 * q in
                 Ok (mean_val - margin_error, mean_val + margin_error)
            else Ok (mean_val, mean_val)) ;;
     cv <- (if negb (Py.Reqb mean_val 0) then Py.div std_dev mean_val
            else Ok 0) ;;
     lo <- Py.min values ;;
     hi <- Py.max values ;;
     Ok {| sample_size := n;
           mean := mean_val;
           median := median_val;
           std_dev := std_dev;
           min_val := lo;
           max_val := hi;
           p25 := p25;
           p75 := p75;
           p95 := p95;
           p99 := p99;
           confidence_interval_95 := ci;
           coefficient_variation := cv |})%py
  end.

Definition _norm_cdf (x : R) : R :=
  if Py.Rltb 6 x then 1
  else if Py.Rltb x (-6) then 0
  else 0.5 + 0.5 * tanh (x * 0.7).

Definition two_sample_ttest (baseline optimized : list R) : result (R * R) :=
  let n1 := Py.len baseline in
  let n2 := Py.len optimized in
  if ((n1 <? 2) || (n2 <? 2))%bool%Z then Ok (0, 1)
  else
    (mean1 <- statistics.mean baseline ;;
     mean2 <- statistics.mean optimized ;;
     std1 <- statistics.stdev baseline ;;
     std2 <- statistics.stdev optimized ;;
     v1 <- Py.div (std1 ^ 2) (IZR n1) ;;
     v2 <- Py.div (std2 ^ 2) (IZR n2) ;;
     pooled_se <- Py.sqrt (v1 + v2) ;;
     if Py.Reqb pooled_se 0 then Ok (0, 1)
     else
       t_stat <- Py.div (mean2 - mean1) pooled_se ;;
       let p_value := 2 * (1 - _norm_cdf (Rabs t_stat)) in
       Ok (t_stat, Rmin p_value 1))%py.

Definition cohens_d (baseline optimized : list R) : result R :=
  if ((Py.len baseline <? 2) || (Py.len optimized <? 2))%bool%Z then Ok 0
  else
    (mean1 <- statistics.mean baseline ;;
     mean2 <- statistics.mean optimized ;;
     std1 <- statistics.stdev baseline ;;
     std2 <- statistics.stdev optimized ;;
     let n1 := Py.len baseline in
     let n2 := Py.len optimized in
     v <- Py.div (IZR (n1 - 1) * std1 ^ 2 + IZR (n2 - 1) * std2 ^ 2)
                 (IZR (n1 + n2 - 2)) ;;
     pooled_std <- Py.sqrt v ;;
     if Py.Reqb pooled_std 0 then Ok 0
     else Py.div (mean2 - mean1) pooled_std)%py.

Definition validate_performance_comparison
    (baseline_data optimized_data : list R) : M ComparisonResult :=
  (set_violations [] ;;
   baseline_ok <- validate_sample_size (Py.len baseline_data) ;;
   sample_adequate <- (if baseline_ok : bool
                       then validate_sample_size (Py.len optimized_data)
                       else ret false) ;;
   baseline_stats <- lift (calculate_statistics baseline_data) ;;
   optimized_stats <- lift (calculate_statistics optimized_data) ;;
   (if Py.Rltb MAX_CV (coefficient_variation baseline_stats)
    then append_violation
           (HighVariability Baseline (coefficient_variation baseline_stats))
    else ret tt) ;;
   (if Py.Rltb MAX_CV (coefficient_variation optimized_stats)
    then append_violation
           (HighVariability Optimized (coefficient_variation optimized_stats))
    else ret tt) ;;
   let improvement_absolute := mean optimized_stats - mean baseline_stats in
   improvement_percent <-
     lift (if negb (Py.Reqb (mean baseline_stats) 0)
           then (q <- Py.div improvement_absolute (mean baseline_stats) ;;
                 Ok (q * 100))%py
           else Ok 0) ;;
   tp <- lift (two_sample_ttest baseline_data optimized_data) ;;
   let p_value := snd tp in
   effect_size <- lift (cohens_d baseline_data optimized_data) ;;
   let statistical_significance := Py.Rltb p_value SIGNIFICANCE_LEVEL in
   let practical_significance := Py.Rleb MIN_EFFECT_SIZE (Rabs effect_size) in
   ci <- lift (if ((1 <? Py.len baseline_data)
                   && (1 <? Py.len optimized_data))%bool%Z
               then (v1 <- Py.div (std_dev baseline_stats ^ 2)
                                  (IZR (Py.len baseline_data)) ;;
                     v2 <- Py.div (std_dev optimized_stats ^ 2)
                                  (IZR (Py.len optimized_data)) ;;
                     se_diff <- Py.sqrt (v1 + v2) ;;
                     let margin := 1.96 * se_diff in
                     Ok (improvement_absolute - margin,
                         improvement_absolute + margin))%py
               else Ok (improvement_absolute, improvement_absolute)) ;;
   ret {| baseline_stats := baseline_stats;
          optimized_stats := optimized_stats;
          improvement_percent := improvement_percent;
          improvement_absolute := improvement_absolute;
          p_value := p_value;
          cohens_d_value := effect_size;
          confidence_interval_diff := ci;
          statistical_significance := statistical_significance;
          practical_significance := practical_significance;
          sample_adequate := sample_adequate |})%self.

Definition _is_claim_valid (comparison : ComparisonResult) : M bool :=
  fun self =>
    (Ok (sample_adequate comparison
         && statistical_significance comparison
         && practical_significance comparison
         && (Z.of_nat (length (violations self)) =? 0)%Z)%bool,
     self).

(** ** Closed forms used to state the properties

    These follow the specification's formulas; the theorems below relate
    them to the functions above. *)

(** The value at real position [rank] of a list, by linear interpolation
    between the two neighbouring elements. *)
Definition interpolate (values : list R) (rank : R) : R :=
  let n := Py.len values in
  let lowerIndex := Zfloor rank in
  let upperIndex := Z.min (lowerIndex + 1) (n - 1) in
  let weight := rank - IZR lowerIndex in
  nth (Z.to_nat lowerIndex) values 0 * (1 - weight)
  + nth (Z.to_nat upperIndex) values 0 * weight.

(** The "linear" percentile of the specification: interpolation at
    rank [(p/100) * (n-1)]. *)
Definition linear_percentile (values : list R) (p : R) : R :=
  interpolate values ((p / 100) * IZR (Py.len values - 1)).

(** Arithmetic mean and Bessel-corrected standard deviation. *)
Definition mean_of (data : list R) : R := Py.sum data / INR (length data).

Definition stdev_of (data : list R) : R :=
  sqrt (statistics.ss (mean_of data) data / INR (length data - 1)).

(** Pooled standard error and pooled standard deviation of two samples. *)
Definition pooled_standard_error (baseline optimized : list R) : R :=
  sqrt (stdev_of baseline ^ 2 / IZR (Py.len baseline)
        + stdev_of optimized ^ 2 / IZR (Py.len optimized)).

Definition pooled_standard_deviation (baseline optimized : list R) : R :=
  sqrt ((IZR (Py.len baseline - 1) * stdev_of baseline ^ 2
         + IZR (Py.len optimized - 1) * stdev_of optimized ^ 2)
        / IZR (Py.len baseline + Py.len optimized - 2)).

(** The approximate normal CDF as the specification words it. *)
Definition Phi (x : R) : R :=
  if Rle_dec (Rabs x) 6 then 0.5 + 0.5 * tanh (0.7 * x)
  else if Rlt_dec 6 x then 1 else 0.

(** The descriptive summary of a non-empty sample, field by field. *)
Definition summary_of (values : list R) : StatisticalSummary :=
  let n := Py.len values in
  let s := Py.sorted values in
  let m := mean_of values in
  let sd := if (1 <? n)%Z then stdev_of values else 0 in
  {| sample_size := n;
     mean := m;
     median := linear_percentile s 50;
     std_dev := sd;
     min_val := nth 0 s 0;
     max_val := nth (length s - 1) s 0;
     p25 := linear_percentile s 25;
     p75 := linear_percentile s 75;
     p95 := linear_percentile s 95;
     p99 := linear_percentile s 99;
     confidence_interval_95 :=
       if (1 <? n)%Z
       then (m - 1.96 * (sd / sqrt (IZR n)), m + 1.96 * (sd / sqrt (IZR n)))
       else (m, m);
     coefficient_variation := if Py.Reqb m 0 then 0 else sd / m |}.

(** What the two-sample test and the effect size return. *)
Definition ttest_of (baseline optimized : list R) : R * R :=
  if ((Py.len baseline <? 2) || (Py.len optimized <? 2))%bool%Z then (0, 1)
  else
    let se := pooled_standard_error baseline optimized in
    if Py.Reqb se 0 then (0, 1)
    else
      let t := (mean_of optimized - mean_of baseline) / se in
      (t, Rmin (2 * (1 - _norm_cdf (Rabs t))) 1).

Definition effect_of (baseline optimized : list R) : R :=
  if ((Py.len baseline <? 2) || (Py.len optimized <? 2))%bool%Z then 0
  else
    let sd := pooled_standard_deviation baseline optimized in
    if Py.Reqb sd 0 then 0
    else (mean_of optimized - mean_of baseline) / sd.

(** The violation list a completed comparison leaves behind.  The second
    sample-size check runs only when the first one passed. *)
Definition size_violations (baseline optimized : list R) : list Violation :=
  if (Py.len baseline <? MIN_SAMPLE_SIZE)%Z
  then [insufficient_sample_size (Py.len baseline)]
  else if (Py.len optimized <? MIN_SAMPLE_SIZE)%Z
       then [insufficient_sample_size (Py.len optimized)]
       else [].

Definition cv_violations (side : Condition) (values : list R)
  : list Violation :=
  let cv := coefficient_variation (summary_of values) in
  if Py.Rltb MAX_CV cv then [HighVariability side cv] else [].

Definition violations_of (baseline optimized : list R) : list Violation :=
  size_violations baseline optimized
  ++ cv_violations Baseline baseline
  ++ cv_violations Optimized optimized.

(** The comparison a completed call returns. *)
Definition comparison_of (baseline optimized : list R) : ComparisonResult :=
  let b := summary_of baseline in
  let o := summary_of optimized in
  let diff := mean o - mean b in
  {| baseline_stats := b;
     optimized_stats := o;
     improvement_percent :=
       if Py.Reqb (mean b) 0 then 0 else diff / mean b * 100;
     improvement_absolute := diff;
     p_value := snd (ttest_of baseline optimized);
     cohens_d_value := effect_of baseline optimized;
     confidence_interval_diff :=
       if ((1 <? Py.len baseline) && (1 <? Py.len optimized))%bool%Z
       then
         let margin :=
           1.96 * sqrt (std_dev b ^ 2 / IZR (Py.len baseline)
                        + std_dev o ^ 2 / IZR (Py.len optimized)) in
         (diff - margin, diff + margin)
       else (diff, diff);
     statistical_significance :=
       Py.Rltb (snd (ttest_of baseline optimized)) SIGNIFICANCE_LEVEL;
     practical_significance :=
       Py.Rleb MIN_EFFECT_SIZE (Rabs (effect_of baseline optimized));
     sample_adequate :=
       ((MIN_SAMPLE_SIZE <=? Py.len baseline)
        && (MIN_SAMPLE_SIZE <=? Py.len optimized))%bool%Z |}.

(** Replacing the violation list of a validator. *)
Definition with_violations (self : PerformanceValidator)
    (vs : list Violation) : PerformanceValidator :=
  {| strict_mode := strict_mode self; violations := vs |}.

(** ** Report helpers of the validator *)

Definition _interpret_effect_size (d : R) : string :=
  let abs_d := Rabs d in
  if Py.Rltb abs_d 0.2 then "Negligible effect"%string
  else if Py.Rltb abs_d 0.5 then "Small effect"%string
  else if Py.Rltb abs_d 0.8 then "Medium effect"%string
  else "Large effect"%string.

(** The line feed of ["\n".join]. *)
Definition newline : string := String (Ascii.ascii_of_nat 10) EmptyString.

Definition ALL_CRITERIA_MET : string :=
  "All validation criteria met - performance improvement is statistically supported"%string.

(** The local list [recommendations] when the function reaches its
    [return]. *)
Definition recommendation_list (comparison : ComparisonResult)
    (self : PerformanceValidator) : list string :=
  let recommendations : list string := [] in
  let recommendations :=
    if negb (sample_adequate comparison)
    then recommendations
         ++ [("Increase sample size to at least " ++ Py.str MIN_SAMPLE_SIZE
              ++ " per condition")%string]
    else recommendations in
  let recommendations :=
    if negb (statistical_significance comparison)
    then recommendations
         ++ ["No statistical significance detected - improvement may be due to chance"%string]
    else recommendations in
  let recommendations :=
    if negb (practical_significance comparison)
    then recommendations
         ++ ["Effect size is small - improvement may not be practically meaningful"%string]
    else recommendations in
  let recommendations :=
    if Py.Rltb MAX_CV (coefficient_variation (baseline_stats comparison))
    then recommendations
         ++ ["High baseline variability - consider controlling external factors"%string]
    else recommendations in
  let recommendations :=
    match violations self with
    | [] => recommendations
    | _ :: _ =>
      recommendations
      ++ ["Address all validation violations before making performance claims"%string]
    end in
  match recommendations with
  | [] => recommendations ++ [ALL_CRITERIA_MET]
  | _ :: _ => recommendations
  end.

Definition _generate_recommendations (comparison : ComparisonResult)
    : M string :=
  fun self =>
    (Ok (String.concat newline
           (map (fun rec => "- " ++ rec)%string
                (recommendation_list comparison self))),
     self).

(** ** The benchmark harness *)

Record PerformanceResult : Type := mkResult {
  latency_ms : R;
  throughput_rps : R;
  timestamp : string;
  success : bool;
  metadata : option (list (string * string))
}.

(** What one [subprocess.run(cmd, capture_output=True, text=True,
    timeout=30)] does: it returns a completed process, raises
    [subprocess.TimeoutExpired], or raises something else. *)
Inductive Completion : Type :=
| Completed (returncode : Z) (stdout stderr : string)
| TimeoutExpired
| Failed (e : PyError).

(** The outside world of one [run_benchmark] call, by iteration of its
    loop: the outcome of the subprocess and the text of
    [datetime.now().isoformat()]. *)
Record Environment : Type := mkEnvironment {
  subprocess_run : nat -> Completion;
  datetime_now : nat -> string
}.

Definition _extract_latency_from_output (output : string) : R := 150.

Definition _extract_throughput_from_output (output : string) : R := 30.

(** The [for i in range(requests)] loop: [i] is the current iteration,
    [remaining] the number of iterations left and [results] the list built
    so far. *)
Fixpoint benchmark_loop (env : Environment) (i remaining : nat)
    (results : list PerformanceResult) : result (list PerformanceResult) :=
  match remaining with
  | O => Ok results
  | S remaining' =>
    match subprocess_run env i with
    | Completed returncode stdout stderr =>
      if (returncode =? 0)%Z
      then
        let latency := _extract_latency_from_output stdout in
        let throughput := _extract_throughput_from_output stdout in
        benchmark_loop env (S i) remaining'
          (results ++ [ {| latency_ms := latency;
                           throughput_rps := throughput;
                           timestamp := datetime_now env i;
                           success := true;
                           metadata := None |} ])
      else
        benchmark_loop env (S i) remaining'
          (results ++ [ {| latency_ms := 0;
                           throughput_rps := 0;
                           timestamp := datetime_now env i;
                           success := false;
                           metadata := Some [("error"%string, stderr)] |} ])
    | TimeoutExpired =>
      benchmark_loop env (S i) remaining'
        (results ++ [ {| latency_ms := 0;
                         throughput_rps := 0;
                         timestamp := datetime_now env i;
                         success := false;
                         metadata := Some [("error"%string, "timeout"%string)] |} ])
    | Failed e => Raise e
    end
  end.

(** [run_benchmark]: the lines printed and the value returned (or the
    exception raised). *)
Definition run_benchmark (env : Environment) (binary_path url : string)
    (requests concurrency : Z)
    : list string * result (list PerformanceResult) :=
  (if (requests <? MIN_SAMPLE_SIZE)%Z
   then [("WARNING: Request count " ++ Py.str requests ++ " < minimum "
          ++ Py.str MIN_SAMPLE_SIZE)%string]
   else [],
   benchmark_loop env 0 (Z.to_nat requests) []).

(** [[r.latency_ms for r in results if r.success]], as [main] builds the
    two samples from the benchmark results. *)
Definition successful_latencies (results : list PerformanceResult) : list R :=
  map latency_ms (filter success results).

(** The record the loop appends at iteration [i] when the subprocess does
    not raise anything but a timeout. *)
Definition recorded (env : Environment) (i : nat) : PerformanceResult :=
  match subprocess_run env i with
  | Completed returncode stdout stderr =>
    if (returncode =? 0)%Z
    then {| latency_ms := _extract_latency_from_output stdout;
            throughput_rps := _extract_throughput_from_output stdout;
            timestamp := datetime_now env i;
            success := true;
            metadata := None |}
    else {| latency_ms := 0;
            throughput_rps := 0;
            timestamp := datetime_now env i;
            success := false;
            metadata := Some [("error"%string, stderr)] |}
  | _ =>
    {| latency_ms := 0;
       throughput_rps := 0;
       timestamp := datetime_now env i;
       success := false;
       metadata := Some [("error"%string, "timeout"%string)] |}
  end.

(** ** Order statistics in binary64

    The functions that pick and interpolate order statistics, over IEEE 754
    binary64 numbers with round-to-nearest-even, as Python evaluates them:
    every arithmetic operation below is one rounded operation of the
    source, in the order the source performs it.  NaN is not a measurement
    and is not modelled. *)

Module B64.

Import Floats.

(** [float(n)] for an [int], as the mixed [int]/[float] arithmetic of the
    source converts it. *)
Definition of_int (n : Z) : result float :=
  let x := SF2Prim (binary_normalize prec emax n 0 false) in
  if is_infinity x then Raise OverflowError else Ok x.

(** [int(x)]: truncation towards zero. *)
Definition int (x : float) : result Z :=
  match Prim2SF x with
  | S754_zero _ => Ok 0%Z
  | S754_finite negative m e =>
    let magnitude :=
      if (0 <=? e)%Z then (Z.pos m * 2 ^ e)%Z
      else (Z.pos m / 2 ^ (- e))%Z in
    Ok (if negative then (- magnitude)%Z else magnitude)
  | S754_infinity _ => Raise OverflowError
  | S754_nan => Raise (ValueError "cannot convert float NaN to integer")
  end.

Definition len (l : list float) : Z := Z.of_nat (length l).

(** [l[i]], as [Py.index]. *)
Definition index (l : list float) (i : Z) : result float :=
  let n := len l in
  let j := if (i <? 0)%Z then (i + n)%Z else i in
  if ((0 <=? j) && (j <? n))%bool%Z
  then match nth_error l (Z.to_nat j) with
       | Some v => Ok v
       | None => Raise IndexError
       end
  else Raise IndexError.

(** [sorted(l)]: stable, ascending. *)
Fixpoint insert (x : float) (l : list float) : list float :=
  match l with
  | [] => [x]
  | y :: t => if (x <=? y)%float then x :: y :: t else y :: insert x t
  end.

Definition sorted (l : list float) : list float := fold_right insert [] l.

(** [min(l)] and [max(l)]: the first smallest and the first largest. *)
Definition min (l : list float) : result float :=
  match l with
  | [] => Raise (ValueError "min() arg is an empty sequence")
  | x :: t => Ok (fold_left (fun m y => if (y <? m)%float then y else m) t x)
  end.

Definition max (l : list float) : result float :=
  match l with
  | [] => Raise (ValueError "max() arg is an empty sequence")
  | x :: t => Ok (fold_left (fun m y => if (m <? y)%float then y else m) t x)
  end.

(** [statistics.median]. *)
Definition median (data : list float) : result float :=
  let data := sorted data in
  let n := length data in
  if (n =? 0)%nat then Raise StatisticsError
  else
    let i := Z.of_nat (n / 2) in
    if (n mod 2 =? 1)%nat then index data i
    else
      (a <- index data (i - 1) ;;
       b <- index data i ;;
       Ok ((a + b) / 2)%float)%py.

(** [PerformanceValidator._percentile]. *)
Definition _percentile (sorted_values : list float) (percentile : Z)
  : result float :=
  match sorted_values with
  | [] => Ok 0%float
  | _ =>
    let n := len sorted_values in
    if (n =? 1)%Z then index sorted_values 0
    else
      (p <- of_int percentile ;;
       m <- of_int (n - 1) ;;
       let rank := (p / 100 * m)%float in
       lower_idx <- int rank ;;
       let upper_idx := Z.min (lower_idx + 1) (n - 1) in
       if (lower_idx =? upper_idx)%Z then index sorted_values lower_idx
       else
         l <- of_int lower_idx ;;
         let weight := (rank - l)%float in
         lo <- index sorted_values lower_idx ;;
         hi <- index sorted_values upper_idx ;;
         Ok (lo * (1 - weight) + hi * weight)%float)%py
  end.


End B64.

(** * Properties *)

(** ** Decisions on reals *)

Lemma Rltb_true x y : Py.Rltb x y = true <-> x < y.
Proof. unfold Py.Rltb. destruct (Rlt_dec x y); split; intros; easy. Qed.

Lemma Rltb_false x y : Py.Rltb x y = false <-> y <= x.
Proof.
  unfold Py.Rltb. destruct (Rlt_dec x y); split; intros; try easy; lra.
Qed.

Lemma Rleb_true x y : Py.Rleb x y = true <-> x <= y.
Proof. unfold Py.Rleb. destruct (Rle_dec x y); split; intros; easy. Qed.

Lemma Rleb_false x y : Py.Rleb x y = false <-> y < x.
Proof.
  unfold Py.Rleb. destruct (Rle_dec x y); split; intros; try easy; lra.
Qed.

Lemma Reqb_true x y : Py.Reqb x y = true <-> x = y.
Proof. unfold Py.Reqb. destruct (Req_dec_T x y); split; intros; easy. Qed.

Lemma Reqb_false x y : Py.Reqb x y = false <-> x <> y.
Proof. unfold Py.Reqb. destruct (Req_dec_T x y); split; intros; easy. Qed.

Lemma div_ok x y : y <> 0 -> Py.div x y = Ok (x / y).
Proof.
  intros H. unfold Py.div. apply Reqb_false in H. now rewrite H.
Qed.

Lemma sqrt_ok x : 0 <= x -> Py.sqrt x = Ok (sqrt x).
Proof.
  intros H. unfold Py.sqrt. apply Rltb_false in H. now rewrite H.
Qed.

Lemma int_floor x : 0 <= x -> Py.int x = Zfloor x.
Proof.
  intros H. unfold Py.int. apply Rleb_true in H. now rewrite H.
Qed.

(** ** List indexing *)

Lemma len_nonneg l : (0 <= Py.len l)%Z.
Proof. unfold Py.len. lia. Qed.

Lemma index_nth l i :
  (0 <= i < Py.len l)%Z -> Py.index l i = Ok (nth (Z.to_nat i) l 0).
Proof.
  intros [H0 H1]. unfold Py.index. fold (Py.len l).
  destruct (Z.ltb_spec i 0); [lia|].
  destruct (Z.leb_spec 0 i); [|lia].
  destruct (Z.ltb_spec i (Py.len l)); [|lia]. simpl.
  destruct (nth_error l (Z.to_nat i)) eqn:E.
  - now rewrite (nth_error_nth _ _ 0 E).
  - apply nth_error_None in E. unfold Py.len in *. lia.
Qed.

(** ** [sorted] *)

Lemma insert_perm x l : Permutation (x :: l) (Py.insert x l).
Proof.
  induction l as [|y t IH]; simpl; [reflexivity|].
  destruct (Py.Rleb x y); [reflexivity|].
  rewrite perm_swap. now constructor.
Qed.

Lemma sorted_perm l : Permutation l (Py.sorted l).
Proof.
  induction l as [|x t IH]; simpl; [constructor|].
  rewrite <- insert_perm. now constructor.
Qed.

Lemma sorted_length l : length (Py.sorted l) = length l.
Proof. symmetry. apply Permutation_length, sorted_perm. Qed.


Lemma insert_sorted x l :
  StronglySorted Rle l -> StronglySorted Rle (Py.insert x l).
Proof.
  induction 1 as [|y t Hs IH Hall]; simpl.
  - repeat constructor.
  - destruct (Py.Rleb x y) eqn:E.
    + apply Rleb_true in E. constructor; [now constructor|].
      constructor; [exact E|].
      eapply Forall_impl; [|exact Hall]. intros a Ha. simpl in Ha. lra.
    + apply Rleb_false in E. constructor; [exact IH|].
      eapply Permutation_Forall; [apply insert_perm|].
      constructor; [lra|exact Hall].
Qed.

Lemma sorted_sorted l : StronglySorted Rle (Py.sorted l).
Proof.
  induction l as [|x t IH]; simpl; [constructor|].
  now apply insert_sorted.
Qed.

Lemma sorted_nth_le l :
  StronglySorted Rle l ->
  forall i j, (i <= j < length l)%nat -> nth i l 0 <= nth j l 0.
Proof.
  induction 1 as [|x t Hs IH Hall]; intros i j Hij; simpl in *; [lia|].
  destruct i as [|i], j as [|j]; try lia.
  - lra.
  - rewrite Forall_forall in Hall. apply Hall, nth_In. lia.
  - apply IH. lia.
Qed.

(** ** [min] and [max] *)

Lemma fold_min_spec t : forall x,
  In (fold_left Rmin t x) (x :: t)
  /\ Forall (fun y => fold_left Rmin t x <= y) (x :: t).
Proof.
  induction t as [|a t IH]; intros x; simpl.
  - split; [now left|]. constructor; [lra|constructor].
  - destruct (IH (Rmin x a)) as [Hin Hall]. split.
    + destruct Hin as [Hin|Hin]; [|now right; right].
      rewrite <- Hin. unfold Rmin. destruct (Rle_dec x a); auto.
    + inversion Hall as [|? ? Hm Ht]; subst.
      constructor; [|constructor; [|exact Ht]].
      * pose proof (Rmin_l x a). lra.
      * pose proof (Rmin_r x a). lra.
Qed.

Lemma fold_max_spec t : forall x,
  In (fold_left Rmax t x) (x :: t)
  /\ Forall (fun y => y <= fold_left Rmax t x) (x :: t).
Proof.
  induction t as [|a t IH]; intros x; simpl.
  - split; [now left|]. constructor; [lra|constructor].
  - destruct (IH (Rmax x a)) as [Hin Hall]. split.
    + destruct Hin as [Hin|Hin]; [|now right; right].
      rewrite <- Hin. unfold Rmax. destruct (Rle_dec x a); auto.
    + inversion Hall as [|? ? Hm Ht]; subst.
      constructor; [|constructor; [|exact Ht]].
      * pose proof (Rmax_l x a). lra.
      * pose proof (Rmax_r x a). lra.
Qed.

Lemma min_sorted values :
  values <> [] -> Py.min values = Ok (nth 0 (Py.sorted values) 0).
Proof.
  intros Hne. destruct values as [|x t]; [easy|]. unfold Py.min. f_equal.
  destruct (fold_min_spec t x) as [Hin Hall].
  pose proof (sorted_perm (x :: t)) as HP.
  pose proof (sorted_sorted (x :: t)) as HS.
  pose proof (sorted_length (x :: t)) as HL.
  destruct (Py.sorted (x :: t)) as [|h r]; [discriminate|]. simpl.
  apply Rle_antisym.
  - rewrite Forall_forall in Hall. apply Hall.
    apply (Permutation_in _ (Permutation_sym HP)). now left.
  - apply (Permutation_in _ HP) in Hin. destruct Hin as [->|Hin]; [lra|].
    inversion HS as [|? ? _ Hh]; subst.
    rewrite Forall_forall in Hh. now apply Hh.
Qed.

Lemma max_sorted values :
  values <> [] ->
  Py.max values
  = Ok (nth (length (Py.sorted values) - 1) (Py.sorted values) 0).
Proof.
  intros Hne. destruct values as [|x t]; [easy|]. unfold Py.max. f_equal.
  destruct (fold_max_spec t x) as [Hin Hall].
  pose proof (sorted_perm (x :: t)) as HP.
  pose proof (sorted_sorted (x :: t)) as HS.
  pose proof (sorted_length (x :: t)) as HL.
  set (s := Py.sorted (x :: t)) in *. simpl in HL.
  apply Rle_antisym.
  - apply (Permutation_in _ HP) in Hin.
    destruct (In_nth _ _ 0 Hin) as [i [Hi <-]].
    apply sorted_nth_le; [exact HS|lia].
  - rewrite Forall_forall in Hall. apply Hall.
    apply (Permutation_in _ (Permutation_sym HP)). apply nth_In. lia.
Qed.

(** ** [statistics.mean] and [statistics.stdev] *)

Lemma mean_ok data : data <> [] -> statistics.mean data = Ok (mean_of data).
Proof. destruct data; easy. Qed.

Lemma ss_nonneg c data : 0 <= statistics.ss c data.
Proof.
  unfold statistics.ss. induction data as [|x t IH]; simpl; [lra|].
  pose proof (pow2_ge_0 (x - c)). simpl in *. lra.
Qed.

Lemma variance_nonneg c data :
  (2 <= length data)%nat -> 0 <= statistics.ss c data / INR (length data - 1).
Proof.
  intros H. apply Rmult_le_pos; [apply ss_nonneg|].
  apply Rlt_le, Rinv_0_lt_compat. apply lt_0_INR. lia.
Qed.

Lemma stdev_ok data :
  (2 <= length data)%nat -> statistics.stdev data = Ok (stdev_of data).
Proof.
  intros H. unfold statistics.stdev, statistics.variance.
  destruct (Nat.ltb_spec (length data) 2); [lia|].
  rewrite mean_ok by (destruct data; simpl in *; [lia|easy]). simpl.
  now rewrite sqrt_ok by (apply variance_nonneg; exact H).
Qed.


(** ** The floor of a rank *)


Lemma Zfloor_range x (n : Z) :
  0 <= x <= IZR n -> (0 <= Zfloor x <= n)%Z.
Proof.
  intros [H0 H1]. split.
  - now apply Zfloor_lub.
  - apply le_IZR. pose proof (Zfloor_bound x). lra.
Qed.

Lemma rank_range n p :
  (1 <= n)%Z -> 0 <= p <= 100 -> 0 <= p / 100 * IZR (n - 1) <= IZR (n - 1).
Proof.
  intros Hn Hp. assert (0 <= IZR (n - 1)) by (apply IZR_le; lia). nra.
Qed.

(** ** [_percentile] computes the linear percentile *)

Lemma percentile_linear s p :
  s <> [] -> 0 <= p <= 100 -> _percentile s p = Ok (linear_percentile s p).
Proof.
  intros Hne Hp.
  assert (Hn : (1 <= Py.len s)%Z)
    by (destruct s; [easy|unfold Py.len; simpl; lia]).
  unfold _percentile, linear_percentile, interpolate.
  destruct s as [|x t] eqn:Es; [easy|]. rewrite <- Es in *. clear Es x t.
  pose proof (rank_range _ _ Hn Hp) as Hr.
  set (r := p / 100 * IZR (Py.len s - 1)) in *.
  pose proof (Zfloor_range _ _ Hr) as Hl.
  pose proof (Zfloor_bound r) as Hb.
  rewrite int_floor by lra.
  destruct (Z.eqb_spec (Py.len s) 1) as [E1|E1].
  - rewrite index_nth by lia.
    assert (Zfloor r = 0%Z) as -> by lia.
    rewrite E1 in *. simpl in *. f_equal. lra.
  - destruct (Z.eqb_spec (Zfloor r) (Z.min (Zfloor r + 1) (Py.len s - 1)))
      as [E|E].
    + rewrite index_nth by lia. rewrite <- E. f_equal.
      assert (Hlast : Zfloor r = (Py.len s - 1)%Z) by lia.
      rewrite Hlast in Hb. lra.
    + rewrite !index_nth by lia. reflexivity.
Qed.

(** ** Interpolation over a sorted list is monotone in the rank *)

Section Interpolation.

Variable s : list R.
Hypothesis s_sorted : StronglySorted Rle s.
Hypothesis s_nonempty : (1 <= Py.len s)%Z.






End Interpolation.

(** ** [statistics.median] is the linear percentile at 50 *)

Lemma half_rank_odd k :
  (0 <= k)%Z -> Zfloor (50 / 100 * IZR (2 * k + 1 - 1)) = k.
Proof.
  intros Hk. apply Zfloor_eq. rewrite minus_IZR, plus_IZR, mult_IZR. lra.
Qed.

Lemma half_rank_even k :
  (1 <= k)%Z -> Zfloor (50 / 100 * IZR (2 * k - 1)) = (k - 1)%Z.
Proof.
  intros Hk. apply Zfloor_eq. rewrite !minus_IZR, mult_IZR. lra.
Qed.

Lemma median_linear values :
  values <> [] ->
  statistics.median values = Ok (linear_percentile (Py.sorted values) 50).
Proof.
  intros Hne. unfold statistics.median.
  set (s := Py.sorted values).
  assert (Hlen : (1 <= length s)%nat).
  { unfold s. rewrite sorted_length. destruct values; simpl; [easy|lia]. }
  destruct (Nat.eqb_spec (length s) 0); [lia|].
  pose proof (Nat.div_mod_eq (length s) 2) as Hdm.
  pose proof (Nat.mod_upper_bound (length s) 2 ltac:(lia)) as Hm.
  set (k := (length s / 2)%nat) in *.
  unfold linear_percentile, interpolate, Py.len.
  destruct (Nat.eqb_spec (length s mod 2) 1) as [Eo|Eo].
  - rewrite index_nth by (unfold Py.len; lia).
    replace (Z.of_nat (length s) - 1)%Z with (2 * Z.of_nat k + 1 - 1)%Z by lia.
    rewrite half_rank_odd by lia. f_equal.
    rewrite minus_IZR, plus_IZR, mult_IZR. lra.
  - rewrite !index_nth by (unfold Py.len; lia). simpl.
    replace (Z.of_nat (length s) - 1)%Z with (2 * Z.of_nat k - 1)%Z by lia.
    rewrite half_rank_even by lia.
    replace (Z.min (Z.of_nat k - 1 + 1) (2 * Z.of_nat k - 1))
      with (Z.of_nat k) by lia.
    f_equal. rewrite !minus_IZR, mult_IZR. lra.
Qed.

(** ** [calculate_statistics] in closed form *)

Lemma len_pos values : values <> [] -> (1 <= Py.len values)%Z.
Proof. destruct values; [easy|unfold Py.len; simpl; lia]. Qed.

Lemma sqrt_len_pos values : values <> [] -> 0 < sqrt (IZR (Py.len values)).
Proof.
  intros H. apply sqrt_lt_R0. apply IZR_lt. pose proof (len_pos _ H). lia.
Qed.

Lemma calculate_statistics_ok values :
  values <> [] -> calculate_statistics values = Ok (summary_of values).
Proof.
  intros Hne. pose proof (len_pos _ Hne) as Hn.
  assert (Hs : Py.sorted values <> []).
  { intros E. pose proof (sorted_length values) as L. rewrite E in L.
    destruct values; [easy|discriminate]. }
  unfold calculate_statistics, summary_of.
  destruct values as [|x t] eqn:Ev; [easy|]. rewrite <- Ev in *. clear Ev x t.
  rewrite mean_ok by exact Hne. cbn [rbind].
  rewrite median_linear by exact Hne. cbn [rbind].
  assert (Hsd : (if (1 <? Py.len values)%Z then statistics.stdev values
                 else Ok 0)
                = Ok (if (1 <? Py.len values)%Z then stdev_of values else 0)).
  { destruct (Z.ltb_spec 1 (Py.len values)); [|reflexivity].
    apply stdev_ok. unfold Py.len in *. lia. }
  rewrite Hsd. cbn [rbind].
  rewrite !percentile_linear by (exact Hs || lra). cbn [rbind].
  rewrite min_sorted, max_sorted by exact Hne.
  pose proof (sqrt_len_pos _ Hne) as Hroot.
  destruct (Z.ltb_spec 1 (Py.len values)).
  - rewrite sqrt_ok by (apply IZR_le; lia). cbn [rbind].
    rewrite div_ok by lra. cbn [rbind].
    destruct (Py.Reqb (mean_of values) 0) eqn:Em; cbn [negb rbind].
    + reflexivity.
    + apply Reqb_false in Em. rewrite div_ok by exact Em. reflexivity.
  - cbn [rbind].
    destruct (Py.Reqb (mean_of values) 0) eqn:Em; cbn [negb rbind].
    + reflexivity.
    + apply Reqb_false in Em. rewrite div_ok by exact Em. reflexivity.
Qed.

(** ** The two-sample test and the effect size never raise *)

Lemma quotient_nonneg a b : 0 <= a -> 0 < b -> 0 <= a / b.
Proof.
  intros Ha Hb. apply Rmult_le_pos; [exact Ha|].
  now apply Rlt_le, Rinv_0_lt_compat.
Qed.

Lemma two_sample_ttest_ok baseline optimized :
  two_sample_ttest baseline optimized = Ok (ttest_of baseline optimized).
Proof.
  unfold two_sample_ttest, ttest_of, pooled_standard_error.
  destruct (Z.ltb_spec (Py.len baseline) 2) as [|H1]; [reflexivity|].
  destruct (Z.ltb_spec (Py.len optimized) 2) as [|H2]; [reflexivity|].
  cbn [orb].
  assert (N1 : baseline <> []) by (intros ->; unfold Py.len in H1; simpl in H1; lia).
  assert (N2 : optimized <> []) by (intros ->; unfold Py.len in H2; simpl in H2; lia).
  rewrite !mean_ok by assumption. cbn [rbind].
  rewrite !stdev_ok by (unfold Py.len in *; lia). cbn [rbind].
  assert (P1 : 0 < IZR (Py.len baseline)) by (apply IZR_lt; lia).
  assert (P2 : 0 < IZR (Py.len optimized)) by (apply IZR_lt; lia).
  rewrite !div_ok by lra. cbn [rbind].
  rewrite sqrt_ok.
  2:{ pose proof (quotient_nonneg _ _ (pow2_ge_0 (stdev_of baseline)) P1).
      pose proof (quotient_nonneg _ _ (pow2_ge_0 (stdev_of optimized)) P2).
      lra. }
  cbn [rbind].
  destruct (Py.Reqb _ 0) eqn:E; [reflexivity|].
  apply Reqb_false in E. rewrite div_ok by exact E. reflexivity.
Qed.

Lemma cohens_d_ok baseline optimized :
  cohens_d baseline optimized = Ok (effect_of baseline optimized).
Proof.
  unfold cohens_d, effect_of, pooled_standard_deviation.
  destruct (Z.ltb_spec (Py.len baseline) 2) as [|H1]; [reflexivity|].
  destruct (Z.ltb_spec (Py.len optimized) 2) as [|H2]; [reflexivity|].
  cbn [orb].
  assert (N1 : baseline <> []) by (intros ->; unfold Py.len in H1; simpl in H1; lia).
  assert (N2 : optimized <> []) by (intros ->; unfold Py.len in H2; simpl in H2; lia).
  rewrite !mean_ok by assumption. cbn [rbind].
  rewrite !stdev_ok by (unfold Py.len in *; lia). cbn [rbind].
  assert (P : 0 < IZR (Py.len baseline + Py.len optimized - 2))
    by (apply IZR_lt; lia).
  assert (P1 : 0 <= IZR (Py.len baseline - 1)) by (apply IZR_le; lia).
  assert (P2 : 0 <= IZR (Py.len optimized - 1)) by (apply IZR_le; lia).
  rewrite div_ok by lra. cbn [rbind].
  rewrite sqrt_ok.
  2:{ apply quotient_nonneg; [|exact P].
      pose proof (pow2_ge_0 (stdev_of baseline)).
      pose proof (pow2_ge_0 (stdev_of optimized)). nra. }
  cbn [rbind].
  destruct (Py.Reqb _ 0) eqn:E; [reflexivity|].
  apply Reqb_false in E. rewrite div_ok by exact E. reflexivity.
Qed.

(** ** [validate_performance_comparison] in closed form *)

Lemma std_dev_summary values :
  (1 < Py.len values)%Z -> std_dev (summary_of values) = stdev_of values.
Proof.
  intros H. unfold summary_of; simpl.
  destruct (Z.ltb_spec 1 (Py.len values)); [reflexivity|lia].
Qed.

Lemma validate_ok baseline optimized self :
  baseline <> [] -> optimized <> [] ->
  validate_performance_comparison baseline optimized self
  = (Ok (comparison_of baseline optimized),
     with_violations self (violations_of baseline optimized)).
Proof.
  intros Nb No.
  pose proof (len_pos _ Nb) as Lb. pose proof (len_pos _ No) as Lo.
  unfold validate_performance_comparison, comparison_of, violations_of,
    size_violations, cv_violations, with_violations.
  unfold bind, lift, ret, set_violations, validate_sample_size,
    append_violation. cbn [violations strict_mode].
  rewrite two_sample_ttest_ok, cohens_d_ok.
  rewrite !calculate_statistics_ok by assumption.
  set (b := summary_of baseline). set (o := summary_of optimized).
  assert (Hpct :
    (if negb (Py.Reqb (mean b) 0)
     then rbind (Py.div (mean o - mean b) (mean b)) (fun q => Ok (q * 100))
     else Ok 0)
    = Ok (if Py.Reqb (mean b) 0 then 0 else (mean o - mean b) / mean b * 100)).
  { destruct (Py.Reqb (mean b) 0) eqn:E; [reflexivity|]. cbn [negb].
    apply Reqb_false in E. now rewrite div_ok by exact E. }
  assert (Hci :
    (if ((1 <? Py.len baseline) && (1 <? Py.len optimized))%bool%Z
     then rbind (Py.div (std_dev b ^ 2) (IZR (Py.len baseline))) (fun v1 =>
          rbind (Py.div (std_dev o ^ 2) (IZR (Py.len optimized))) (fun v2 =>
          rbind (Py.sqrt (v1 + v2)) (fun se_diff =>
          Ok (mean o - mean b - 1.96 * se_diff,
              mean o - mean b + 1.96 * se_diff))))
     else Ok (mean o - mean b, mean o - mean b))
    = Ok (if ((1 <? Py.len baseline) && (1 <? Py.len optimized))%bool%Z
          then (mean o - mean b
                - 1.96 * sqrt (std_dev b ^ 2 / IZR (Py.len baseline)
                               + std_dev o ^ 2 / IZR (Py.len optimized)),
                mean o - mean b
                + 1.96 * sqrt (std_dev b ^ 2 / IZR (Py.len baseline)
                               + std_dev o ^ 2 / IZR (Py.len optimized)))
          else (mean o - mean b, mean o - mean b))).
  { destruct ((1 <? Py.len baseline) && (1 <? Py.len optimized))%bool%Z;
      [|reflexivity].
    assert (P1 : 0 < IZR (Py.len baseline)) by (apply IZR_lt; lia).
    assert (P2 : 0 < IZR (Py.len optimized)) by (apply IZR_lt; lia).
    rewrite !div_ok by lra. cbn [rbind]. rewrite sqrt_ok; [reflexivity|].
    pose proof (quotient_nonneg _ _ (pow2_ge_0 (std_dev b)) P1).
    pose proof (quotient_nonneg _ _ (pow2_ge_0 (std_dev o)) P2). lra. }
  rewrite Hpct, Hci. clear Hpct Hci.
  destruct (Z.ltb_spec (Py.len baseline) MIN_SAMPLE_SIZE) as [Sb|Sb];
    [|destruct (Z.ltb_spec (Py.len optimized) MIN_SAMPLE_SIZE) as [So|So]];
    cbn [violations strict_mode app];
    destruct (Py.Rltb MAX_CV (coefficient_variation b));
    destruct (Py.Rltb MAX_CV (coefficient_variation o));
    cbn [violations strict_mode app snd].
  all: destruct (Z.leb_spec MIN_SAMPLE_SIZE (Py.len baseline)); try lia.
  all: destruct (Z.leb_spec MIN_SAMPLE_SIZE (Py.len optimized)); try lia.
  all: reflexivity.
Qed.

(** ** The error path of [validate_performance_comparison] *)

Lemma validate_empty_baseline optimized self :
  validate_performance_comparison [] optimized self
  = (Raise EMPTY_DATASET,
     with_violations self [insufficient_sample_size 0]).
Proof. reflexivity. Qed.

Lemma validate_empty_optimized baseline self :
  baseline <> [] ->
  validate_performance_comparison baseline [] self
  = (Raise EMPTY_DATASET,
     with_violations self (size_violations baseline [])).
Proof.
  intros Nb.
  unfold validate_performance_comparison, size_violations, with_violations.
  unfold bind, lift, ret, set_violations, validate_sample_size,
    append_violation. cbn [violations strict_mode].
  rewrite calculate_statistics_ok by exact Nb.
  destruct (Z.ltb_spec (Py.len baseline) MIN_SAMPLE_SIZE); reflexivity.
Qed.

(** ** The hyperbolic tangent on the non-negative reals *)

Lemma tanh_range x : 0 <= x -> 0 <= tanh x < 1.
Proof.
  intros Hx. unfold tanh, sinh, cosh.
  pose proof (exp_pos x) as Px. pose proof (exp_pos (- x)) as Pn.
  assert (Hle : exp (- x) <= exp x).
  { destruct (Req_dec x 0) as [->|Hne].
    - rewrite Ropp_0. lra.
    - apply Rlt_le, exp_increasing. lra. }
  assert (Hq : (exp x - exp (- x)) / 2 / ((exp x + exp (- x)) / 2)
               = (exp x - exp (- x)) / (exp x + exp (- x)))
    by (field; lra).
  rewrite Hq. split.
  - apply quotient_nonneg; lra.
  - apply (Rmult_lt_reg_r (exp x + exp (- x))); [lra|].
    unfold Rdiv. rewrite Rmult_assoc, Rinv_l by lra. lra.
Qed.

Lemma norm_cdf_Phi x : _norm_cdf x = Phi x.
Proof.
  unfold _norm_cdf, Phi.
  destruct (Py.Rltb 6 x) eqn:E1.
  - apply Rltb_true in E1.
    destruct (Rle_dec (Rabs x) 6) as [H|H].
    + pose proof (Rle_abs x). lra.
    + destruct (Rlt_dec 6 x); [reflexivity|lra].
  - apply Rltb_false in E1.
    destruct (Py.Rltb x (-6)) eqn:E2.
    + apply Rltb_true in E2.
      destruct (Rle_dec (Rabs x) 6) as [H|H].
      * rewrite Rabs_left in H by lra. lra.
      * destruct (Rlt_dec 6 x); [lra|reflexivity].
    + apply Rltb_false in E2.
      destruct (Rle_dec (Rabs x) 6) as [H|H].
      * f_equal. f_equal. f_equal. lra.
      * exfalso. apply H. apply Rabs_le. lra.
Qed.

Lemma norm_cdf_half x : 0 <= x -> 0.5 <= _norm_cdf x <= 1.
Proof.
  intros Hx. unfold _norm_cdf.
  destruct (Py.Rltb 6 x); [lra|].
  destruct (Py.Rltb x (-6)) eqn:E; [apply Rltb_true in E; lra|].
  assert (H : 0 <= x * 0.7) by lra.
  pose proof (tanh_range _ H). lra.
Qed.

Lemma clamped_p_value t :
  Rmin (2 * (1 - _norm_cdf (Rabs t))) 1 = 2 * (1 - Phi (Rabs t))
  /\ 0 <= 2 * (1 - Phi (Rabs t)) <= 1.
Proof.
  pose proof (norm_cdf_half _ (Rabs_pos t)) as H.
  rewrite <- norm_cdf_Phi. split; [|lra].
  apply Rmin_left. lra.
Qed.

(** * The claims *)

(** ** The validity gate *)

(** C1.  After [validate_performance_comparison] has returned a comparison,
    the verdict of [_is_claim_valid] is true exactly when [sample_adequate],
    [statistical_significance] and [practical_significance] all hold and the
    violation list is empty; as soon as one of the four fails the verdict is
    false, whatever the other three are. *)
Theorem claim_valid_is_conjunction baseline optimized self comparison self' :
  validate_performance_comparison baseline optimized self
  = (Ok comparison, self') ->
  exists verdict,
    _is_claim_valid comparison self' = (Ok verdict, self')
    /\ (verdict = true <->
        sample_adequate comparison = true
        /\ statistical_significance comparison = true
        /\ practical_significance comparison = true
        /\ violations self' = [])
    /\ (sample_adequate comparison = false
        \/ statistical_significance comparison = false
        \/ practical_significance comparison = false
        \/ violations self' <> [] ->
        verdict = false).
Proof.
  intros _. unfold _is_claim_valid. eexists. split; [reflexivity|].
  destruct (sample_adequate comparison),
    (statistical_significance comparison),
    (practical_significance comparison),
    (violations self') as [|v vs]; cbn; split;
    try (split; [intros H; try discriminate H; repeat split; reflexivity
                |intros (? & ? & ? & ?); try discriminate; reflexivity]);
    try (intros [H|[H|[H|H]]]; try discriminate H; try reflexivity;
         now elim H).
Qed.

Lemma claim_valid_is_conjunction_witness :
  exists verdict,
    _is_claim_valid (comparison_of [1] [1])
      (with_violations (__init__ true) (violations_of [1] [1]))
    = (Ok verdict, with_violations (__init__ true) (violations_of [1] [1]))
    /\ (verdict = true <->
        sample_adequate (comparison_of [1] [1]) = true
        /\ statistical_significance (comparison_of [1] [1]) = true
        /\ practical_significance (comparison_of [1] [1]) = true
        /\ violations
             (with_violations (__init__ true) (violations_of [1] [1])) = [])
    /\ (sample_adequate (comparison_of [1] [1]) = false
        \/ statistical_significance (comparison_of [1] [1]) = false
        \/ practical_significance (comparison_of [1] [1]) = false
        \/ violations
             (with_violations (__init__ true) (violations_of [1] [1])) <> [] ->
        verdict = false).
Proof.
  apply (claim_valid_is_conjunction [1] [1] (__init__ true)).
  apply validate_ok; discriminate.
Defined.

(** ** Samples of one repeated value *)

Lemma sum_repeat v n : Py.sum (repeat v n) = INR n * v.
Proof.
  induction n as [|n IH]; [simpl; lra|].
  rewrite S_INR. cbn [repeat Py.sum fold_right].
  unfold Py.sum in IH. rewrite IH. lra.
Qed.

Lemma mean_of_repeat v n : (1 <= n)%nat -> mean_of (repeat v n) = v.
Proof.
  intros Hn. unfold mean_of. rewrite sum_repeat, repeat_length.
  field. apply not_0_INR. lia.
Qed.

Lemma ss_repeat v n : statistics.ss v (repeat v n) = 0.
Proof.
  unfold statistics.ss. induction n as [|n IH]; [reflexivity|].
  cbn [repeat map Py.sum fold_right]. unfold Py.sum in IH. rewrite IH.
  simpl. lra.
Qed.

Lemma stdev_of_repeat v n : (1 <= n)%nat -> stdev_of (repeat v n) = 0.
Proof.
  intros Hn. unfold stdev_of.
  rewrite mean_of_repeat by exact Hn. rewrite ss_repeat.
  unfold Rdiv. rewrite Rmult_0_l. apply sqrt_0.
Qed.

Lemma len_repeat v n : Py.len (repeat v n) = Z.of_nat n.
Proof. unfold Py.len. now rewrite repeat_length. Qed.

Lemma repeat_nonempty (v : R) n : (1 <= n)%nat -> repeat v n <> [].
Proof. destruct n; [lia|discriminate]. Qed.

Lemma summary_of_repeat v n :
  (1 <= n)%nat ->
  std_dev (summary_of (repeat v n)) = 0
  /\ coefficient_variation (summary_of (repeat v n)) = 0
  /\ confidence_interval_95 (summary_of (repeat v n)) = (v, v)
  /\ mean (summary_of (repeat v n)) = v.
Proof.
  intros Hn. unfold summary_of. cbn [std_dev coefficient_variation
    confidence_interval_95 mean].
  rewrite mean_of_repeat, stdev_of_repeat by exact Hn.
  assert (Hsd : (if (1 <? Py.len (repeat v n))%Z then 0 else 0) = 0)
    by (destruct (1 <? Py.len (repeat v n))%Z; reflexivity).
  rewrite Hsd. repeat split.
  - destruct (Py.Reqb v 0); [reflexivity|]. unfold Rdiv. lra.
  - destruct (1 <? Py.len (repeat v n))%Z; [|reflexivity].
    unfold Rdiv. rewrite Rmult_0_l, Rmult_0_r. f_equal; lra.
Qed.

(** ** Sample sizes *)

Example str_30 : Py.str 30 = "30"%string.
Proof. reflexivity. Qed.

Example validate_sample_size_5 :
  validate_sample_size 5 (__init__ true)
  = (Ok false,
     mkValidator true [Message "Insufficient sample size: 5 < 30"]).
Proof. reflexivity. Qed.

Example validate_sample_size_30 :
  validate_sample_size 30 (__init__ true) = (Ok true, __init__ true).
Proof. reflexivity. Qed.

(** When the baseline is large enough the second check does run, and a
    short optimized sample is reported. *)
Lemma short_optimized_reported_after_adequate_baseline baseline optimized :
  (MIN_SAMPLE_SIZE <= Py.len baseline)%Z ->
  (Py.len optimized < MIN_SAMPLE_SIZE)%Z ->
  size_violations baseline optimized
  = [insufficient_sample_size (Py.len optimized)].
Proof.
  intros Hb Ho. unfold size_violations.
  destruct (Z.ltb_spec (Py.len baseline) MIN_SAMPLE_SIZE); [lia|].
  destruct (Z.ltb_spec (Py.len optimized) MIN_SAMPLE_SIZE); [reflexivity|lia].
Qed.

(** C2.  The code at samples of five and of seven elements, both shorter
    than [MIN_SAMPLE_SIZE]: the comparison is returned with
    [sample_adequate = false] and the baseline's message is recorded, but no
    message names the optimized sample's count, because the second
    [validate_sample_size] call is skipped once the first has failed. *)
Theorem short_optimized_sample_not_reported self :
  exists comparison self',
    validate_performance_comparison (repeat 1 5) (repeat 1 7) self
    = (Ok comparison, self')
    /\ sample_adequate comparison = false
    /\ violations self' = [Message "Insufficient sample size: 5 < 30"]
    /\ ~ In (Message "Insufficient sample size: 7 < 30") (violations self').
Proof.
  eexists. eexists. split; [apply validate_ok; discriminate|].
  assert (Hv : violations_of (repeat 1 5) (repeat 1 7)
               = [Message "Insufficient sample size: 5 < 30"]).
  { unfold violations_of, cv_violations.
    destruct (summary_of_repeat 1 5 ltac:(lia)) as (_ & -> & _).
    destruct (summary_of_repeat 1 7 ltac:(lia)) as (_ & -> & _).
    assert (E : Py.Rltb MAX_CV 0 = false)
      by (apply Rltb_false; unfold MAX_CV; lra).
    rewrite E. reflexivity. }
  cbn [with_violations violations]. rewrite Hv.
  split; [reflexivity|]. split; [reflexivity|].
  intros [H|[]]. discriminate H.
Qed.

(** ** Percentiles *)

Lemma percentile_example : linear_percentile [10; 20; 30; 40] 50 = 25.
Proof.
  unfold linear_percentile, interpolate.
  replace (Py.len [10; 20; 30; 40]) with 4%Z by reflexivity.
  rewrite (Zfloor_eq 1) by (simpl; lra). simpl. lra.
Qed.

(** C3.  On a list of at least two values and for [p] between 0 and 100,
    [_percentile] returns the linear interpolation
    [value[lowerIndex] * (1 - weight) + value[upperIndex] * weight] at
    [rank = (p/100) * (n-1)], with [lowerIndex = floor rank],
    [upperIndex = min (lowerIndex + 1) (n - 1)] and
    [weight = rank - lowerIndex] (the equation does not depend on the list
    being sorted).  In particular the median of [10; 20; 30; 40] is 25, the
    empty list gives 0 and a one-element list gives its element for
    every [p]. *)
Theorem percentile_is_linear_interpolation :
  (forall sorted_values p,
      (2 <= length sorted_values)%nat -> 0 <= p <= 100 ->
      _percentile sorted_values p
      = Ok (let n := Py.len sorted_values in
            let rank := (p / 100) * IZR (n - 1) in
            let lowerIndex := Zfloor rank in
            let upperIndex := Z.min (lowerIndex + 1) (n - 1) in
            let weight := rank - IZR lowerIndex in
            nth (Z.to_nat lowerIndex) sorted_values 0 * (1 - weight)
            + nth (Z.to_nat upperIndex) sorted_values 0 * weight))
  /\ _percentile [10; 20; 30; 40] 50 = Ok 25
  /\ (forall p, _percentile [] p = Ok 0)
  /\ (forall v p, _percentile [v] p = Ok v).
Proof.
  repeat split.
  - intros s p Hn Hp. rewrite percentile_linear; [reflexivity| |exact Hp].
    destruct s; [simpl in Hn; lia|discriminate].
  - rewrite percentile_linear by (discriminate || lra).
    now rewrite percentile_example.
Qed.

Lemma percentile_is_linear_interpolation_witness :
  _percentile [1; 3] 25
  = Ok (nth (Z.to_nat (Zfloor (25 / 100 * IZR (2 - 1)))) [1; 3] 0
        * (1 - (25 / 100 * IZR (2 - 1)
                - IZR (Zfloor (25 / 100 * IZR (2 - 1)))))
        + nth (Z.to_nat (Z.min (Zfloor (25 / 100 * IZR (2 - 1)) + 1) (2 - 1)))
            [1; 3] 0
          * (25 / 100 * IZR (2 - 1) - IZR (Zfloor (25 / 100 * IZR (2 - 1))))).
Proof.
  apply (proj1 percentile_is_linear_interpolation [1; 3] 25).
  - simpl. lia.
  - lra.
Defined.

(** ** Degenerate comparisons *)

(** C4.  When either sample has fewer than two elements, or the pooled
    standard error is 0, [two_sample_ttest] returns [t_stat = 0] and
    [p_value = 1] and raises nothing; when either sample has fewer than two
    elements, or the pooled standard deviation is 0, [cohens_d] returns 0. *)
Theorem degenerate_comparison_fallback baseline optimized :
  ((length baseline < 2)%nat \/ (length optimized < 2)%nat
   \/ pooled_standard_error baseline optimized = 0 ->
   two_sample_ttest baseline optimized = Ok (0, 1))
  /\ ((length baseline < 2)%nat \/ (length optimized < 2)%nat
      \/ pooled_standard_deviation baseline optimized = 0 ->
      cohens_d baseline optimized = Ok 0).
Proof.
  rewrite two_sample_ttest_ok, cohens_d_ok. unfold ttest_of, effect_of.
  split; intros H;
    destruct (Z.ltb_spec (Py.len baseline) 2) as [|H1]; try reflexivity;
    destruct (Z.ltb_spec (Py.len optimized) 2) as [|H2]; try reflexivity;
    cbn [orb];
    (destruct H as [H|[H|H]];
     [unfold Py.len in *; lia|unfold Py.len in *; lia|]);
    apply Reqb_true in H; now rewrite H.
Qed.

Lemma degenerate_comparison_fallback_witness :
  (two_sample_ttest [1] [2; 3] = Ok (0, 1)
   /\ two_sample_ttest [1; 1] [2; 2] = Ok (0, 1))
  /\ (cohens_d [1] [2; 3] = Ok 0 /\ cohens_d [1; 1] [2; 2] = Ok 0).
Proof.
  assert (Hse : pooled_standard_error [1; 1] [2; 2] = 0).
  { unfold pooled_standard_error.
    change [1; 1] with (repeat 1 2). change [2; 2] with (repeat 2 2).
    rewrite (stdev_of_repeat 1 2), (stdev_of_repeat 2 2) by lia.
    unfold Rdiv. rewrite !pow_i, !Rmult_0_l, Rplus_0_l by lia.
    apply sqrt_0. }
  assert (Hsd : pooled_standard_deviation [1; 1] [2; 2] = 0).
  { unfold pooled_standard_deviation.
    change [1; 1] with (repeat 1 2). change [2; 2] with (repeat 2 2).
    rewrite (stdev_of_repeat 1 2), (stdev_of_repeat 2 2) by lia.
    unfold Rdiv. rewrite !pow_i, !Rmult_0_r, Rplus_0_l, Rmult_0_l by lia.
    apply sqrt_0. }
  split; split.
  - apply (proj1 (degenerate_comparison_fallback [1] [2; 3])).
    left. simpl. lia.
  - apply (proj1 (degenerate_comparison_fallback [1; 1] [2; 2])).
    right. right. exact Hse.
  - apply (proj2 (degenerate_comparison_fallback [1] [2; 3])).
    left. simpl. lia.
  - apply (proj2 (degenerate_comparison_fallback [1; 1] [2; 2])).
    right. right. exact Hsd.
Defined.

(** ** The descriptive summary *)




(** *** The order of the quartiles in binary64 *)

Module B64Facts.

Import Floats.


End B64Facts.

(** ** The empty-sample error *)

(** C6.  [calculate_statistics] raises the empty-dataset error exactly when
    its sample is empty and returns a summary for every non-empty one;
    [validate_performance_comparison] ends with that error, and so returns
    no comparison, whenever the baseline or the optimized sample is
    empty. *)
Theorem empty_sample_error :
  (forall values,
      calculate_statistics values = Raise EMPTY_DATASET <-> values = [])
  /\ (forall values,
        values <> [] -> exists s, calculate_statistics values = Ok s)
  /\ (forall baseline optimized self,
        baseline = [] \/ optimized = [] ->
        fst (validate_performance_comparison baseline optimized self)
        = Raise EMPTY_DATASET).
Proof.
  split; [|split].
  - intros values. split.
    + intros H. destruct values as [|x t]; [reflexivity|].
      rewrite calculate_statistics_ok in H by discriminate. discriminate H.
    + intros ->. reflexivity.
  - intros values Hne. eexists. now apply calculate_statistics_ok.
  - intros baseline optimized self [->| ->].
    + now rewrite validate_empty_baseline.
    + destruct baseline as [|x t]; [now rewrite validate_empty_baseline|].
      now rewrite validate_empty_optimized by discriminate.
Qed.

Lemma empty_sample_error_witness :
  (exists s, calculate_statistics [4; 2] = Ok s)
  /\ fst (validate_performance_comparison [4; 2] [] (__init__ true))
     = Raise EMPTY_DATASET
  /\ fst (validate_performance_comparison [] [4; 2] (__init__ true))
     = Raise EMPTY_DATASET.
Proof.
  destruct empty_sample_error as (_ & Hok & Hraise).
  split; [apply Hok; discriminate|].
  split; apply Hraise; [right|left]; reflexivity.
Defined.

(** ** The p-value *)

(** C7.  [two_sample_ttest] always returns a pair whose p-value lies in
    [[0, 1]]; when both samples have at least two elements and the pooled
    standard error is not 0, the statistic is the difference of the means
    over the pooled standard error and the p-value is
    [2 * (1 - Phi |t_stat|)]. *)
Theorem p_value_formula_and_range baseline optimized :
  exists t_stat p,
    two_sample_ttest baseline optimized = Ok (t_stat, p)
    /\ 0 <= p <= 1
    /\ ((2 <= length baseline)%nat -> (2 <= length optimized)%nat ->
        pooled_standard_error baseline optimized <> 0 ->
        t_stat = (mean_of optimized - mean_of baseline)
                 / pooled_standard_error baseline optimized
        /\ p = 2 * (1 - Phi (Rabs t_stat))).
Proof.
  rewrite two_sample_ttest_ok. unfold ttest_of.
  destruct (Z.ltb_spec (Py.len baseline) 2) as [H1|H1];
    [|destruct (Z.ltb_spec (Py.len optimized) 2) as [H2|H2]]; cbn [orb].
  - exists 0, 1. split; [reflexivity|]. split; [lra|].
    intros. unfold Py.len in *. lia.
  - exists 0, 1. split; [reflexivity|]. split; [lra|].
    intros. unfold Py.len in *. lia.
  - destruct (Py.Reqb (pooled_standard_error baseline optimized) 0) eqn:E.
    + exists 0, 1. split; [reflexivity|]. split; [lra|].
      intros _ _ Hse. apply Reqb_true in E. contradiction.
    + eexists. eexists. split; [reflexivity|].
      destruct (clamped_p_value
                  ((mean_of optimized - mean_of baseline)
                   / pooled_standard_error baseline optimized)) as [Hp Hr].
      rewrite Hp. split; [exact Hr|]. intros _ _ _. split; reflexivity.
Qed.

Lemma stdev_of_sq data :
  (2 <= length data)%nat ->
  stdev_of data ^ 2
  = statistics.ss (mean_of data) data / INR (length data - 1).
Proof.
  intros H. unfold stdev_of. apply pow2_sqrt. now apply variance_nonneg.
Qed.

Lemma pooled_standard_error_example :
  pooled_standard_error [0; 2] [1; 3] <> 0.
Proof.
  unfold pooled_standard_error.
  rewrite !stdev_of_sq by (simpl; lia).
  apply Rgt_not_eq, sqrt_lt_R0.
  unfold mean_of, statistics.ss, Py.sum, Py.len. simpl. lra.
Qed.

Lemma p_value_formula_and_range_witness :
  exists t_stat p,
    two_sample_ttest [0; 2] [1; 3] = Ok (t_stat, p)
    /\ 0 <= p <= 1
    /\ t_stat = (mean_of [1; 3] - mean_of [0; 2])
                / pooled_standard_error [0; 2] [1; 3]
    /\ p = 2 * (1 - Phi (Rabs t_stat)).
Proof.
  destruct (p_value_formula_and_range [0; 2] [1; 3])
    as (t & p & Hrun & Hrange & Hformula).
  exists t, p. split; [exact Hrun|]. split; [exact Hrange|].
  apply Hformula.
  - simpl. lia.
  - simpl. lia.
  - exact pooled_standard_error_example.
Defined.

(** ** Samples without spread *)

(** C8.  For a sample of [n >= 2] copies of one value [v],
    [calculate_statistics] returns a standard deviation of 0, a coefficient
    of variation of 0 and the confidence interval [(v, v)]; for a sample of
    a single element it returns a standard deviation of 0, a coefficient of
    variation of 0 and the point interval [(mean, mean)]. *)
Theorem constant_sample_summary :
  (forall v n,
      (2 <= n)%nat ->
      exists s,
        calculate_statistics (repeat v n) = Ok s
        /\ std_dev s = 0
        /\ coefficient_variation s = 0
        /\ confidence_interval_95 s = (v, v))
  /\ (forall x,
        exists s,
          calculate_statistics [x] = Ok s
          /\ std_dev s = 0
          /\ coefficient_variation s = 0
          /\ confidence_interval_95 s = (mean s, mean s)).
Proof.
  split.
  - intros v n Hn. exists (summary_of (repeat v n)).
    split; [apply calculate_statistics_ok, repeat_nonempty; lia|].
    destruct (summary_of_repeat v n ltac:(lia)) as (H1 & H2 & H3 & _).
    now repeat split.
  - intros x. exists (summary_of [x]).
    split; [apply calculate_statistics_ok; discriminate|].
    destruct (summary_of_repeat x 1 ltac:(lia)) as (H1 & H2 & H3 & H4).
    change (repeat x 1) with [x] in *. rewrite H4. now repeat split.
Qed.

Lemma constant_sample_summary_witness :
  exists s,
    calculate_statistics [7; 7; 7] = Ok s
    /\ std_dev s = 0
    /\ coefficient_variation s = 0
    /\ confidence_interval_95 s = (7, 7).
Proof. apply (proj1 constant_sample_summary 7 3%nat). lia. Defined.

(** ** Repeated calls *)

(** C9.  For non-empty samples, a call of [validate_performance_comparison]
    returns a comparison, and a second call with the same samples on the
    validator the first call left behind returns the same comparison and
    leaves the same violation list: the list is reset when the call starts
    and nothing else of the validator is read. *)
Theorem validation_is_repeatable baseline optimized self :
  baseline <> [] -> optimized <> [] ->
  exists comparison self1,
    validate_performance_comparison baseline optimized self
    = (Ok comparison, self1)
    /\ exists self2,
         validate_performance_comparison baseline optimized self1
         = (Ok comparison, self2)
         /\ violations self2 = violations self1.
Proof.
  intros Nb No. eexists. eexists.
  split; [now apply validate_ok|].
  eexists. split; [now apply validate_ok|]. reflexivity.
Qed.

Lemma validation_is_repeatable_witness :
  exists comparison self1,
    validate_performance_comparison [5; 6] [3; 4]
      (mkValidator true [Message "stale"])
    = (Ok comparison, self1)
    /\ exists self2,
         validate_performance_comparison [5; 6] [3; 4] self1
         = (Ok comparison, self2)
         /\ violations self2 = violations self1.
Proof.
  apply (validation_is_repeatable [5; 6] [3; 4]); discriminate.
Defined.

(** ** State left behind by the error path *)

(** C10.  A call with an empty baseline raises the empty-dataset error, and
    by then the violation list has been reset and holds exactly the
    baseline's sample-size message, whatever it held before; on a fresh
    validator the list is therefore no longer what it was before the
    call. *)
Theorem empty_baseline_error_leaves_violation optimized self :
  exists self',
    validate_performance_comparison [] optimized self
    = (Raise EMPTY_DATASET, self')
    /\ violations self' = [Message "Insufficient sample size: 0 < 30"]
    /\ (violations self = [] -> violations self' <> violations self).
Proof.
  eexists. split; [apply validate_empty_baseline|].
  split; [reflexivity|]. intros ->. discriminate.
Qed.

Lemma empty_baseline_error_leaves_violation_witness :
  exists self',
    validate_performance_comparison [] [1; 2] (__init__ true)
    = (Raise EMPTY_DATASET, self')
    /\ violations self' = [Message "Insufficient sample size: 0 < 30"]
    /\ violations self' <> violations (__init__ true).
Proof.
  destruct (empty_baseline_error_leaves_violation [1; 2] (__init__ true))
    as (self' & Hrun & Hlist & Hchanged).
  exists self'. split; [exact Hrun|]. split; [exact Hlist|].
  apply Hchanged. reflexivity.
Defined.

(** * Further properties of the code *)

(** ** Percentiles of a sorted sample *)



(** X3.  A percentile just below 0 is not rejected: [int] truncates the
    negative rank to 0, so the two indices are 0 and 1 and the weight is the
    negative rank itself; [_percentile] returns
    [s[0] * (1 - weight) + s[1] * weight] with [weight = rank - 0]. *)
Theorem percentile_negative_extrapolates s p :
  (2 <= length s)%nat ->
  -1 < p / 100 * IZR (Py.len s - 1) -> p / 100 * IZR (Py.len s - 1) < 0 ->
  _percentile s p
  = Ok (let rank := p / 100 * IZR (Py.len s - 1) in
        let weight := rank - IZR 0 in
        nth 0 s 0 * (1 - weight) + nth 1 s 0 * weight).
Proof.
  intros Hn Hlo Hhi. unfold _percentile.
  destruct s as [|x t] eqn:Es; [simpl in Hn; lia|].
  rewrite <- Es in *. assert (Hlen : (2 <= Py.len s)%Z)
    by (unfold Py.len; lia). clear Es x t.
  set (r := p / 100 * IZR (Py.len s - 1)) in *.
  assert (Hint : Py.int r = 0%Z).
  { unfold Py.int. assert (E : Py.Rleb 0 r = false) by (apply Rleb_false; lra).
    rewrite E. rewrite (Zfloor_eq 0) by (simpl; lra). reflexivity. }
  rewrite Hint.
  destruct (Z.eqb_spec (Py.len s) 1); [lia|].
  replace (Z.min (0 + 1) (Py.len s - 1)) with 1%Z by lia.
  cbn [Z.eqb]. rewrite !index_nth by lia. cbn [rbind]. reflexivity.
Qed.

Lemma percentile_negative_extrapolates_witness :
  _percentile [1; 2; 4] (-10)
  = Ok (let rank := -10 / 100 * IZR (Py.len [1; 2; 4] - 1) in
        let weight := rank - IZR 0 in
        nth 0 [1; 2; 4] 0 * (1 - weight) + nth 1 [1; 2; 4] 0 * weight).
Proof.
  apply (percentile_negative_extrapolates [1; 2; 4] (-10)).
  - simpl. lia.
  - unfold Py.len. simpl. lra.
  - unfold Py.len. simpl. lra.
Defined.

(** ** More on the descriptive summary *)

Lemma sum_bounds lo hi l :
  Forall (fun x => lo <= x <= hi) l ->
  INR (length l) * lo <= Py.sum l <= INR (length l) * hi.
Proof.
  induction 1 as [|x t Hx Ht IH].
  - simpl. lra.
  - cbn [length]. rewrite S_INR. cbn [Py.sum fold_right].
    unfold Py.sum in IH. lra.
Qed.

Lemma sorted_bounds values :
  values <> [] ->
  Forall (fun x => nth 0 (Py.sorted values) 0 <= x
                   <= nth (length (Py.sorted values) - 1)
                        (Py.sorted values) 0) values.
Proof.
  intros Hne. apply Forall_forall. intros x Hx.
  apply (Permutation_in _ (sorted_perm values)) in Hx.
  destruct (In_nth _ _ 0 Hx) as [i [Hi <-]].
  split; apply sorted_nth_le; try apply sorted_sorted; lia.
Qed.

(** X4.  In the summary of a non-empty sample the mean lies between the
    minimum and the maximum, and [sample_size] is the length of the
    sample. *)
Theorem summary_mean_within_range values :
  values <> [] ->
  exists s,
    calculate_statistics values = Ok s
    /\ min_val s <= mean s /\ mean s <= max_val s
    /\ sample_size s = Z.of_nat (length values).
Proof.
  intros Hne. exists (summary_of values).
  split; [now apply calculate_statistics_ok|].
  unfold summary_of. cbn [max_val min_val mean sample_size].
  pose proof (sum_bounds _ _ _ (sorted_bounds values Hne)) as [Hlo Hhi].
  assert (Hlen : 0 < INR (length values))
    by (apply lt_0_INR; destruct values; simpl; [easy|lia]).
  unfold mean_of. split; [|split; [|reflexivity]].
  - apply (Rmult_le_reg_r (INR (length values))); [exact Hlen|].
    unfold Rdiv. rewrite Rmult_assoc, Rinv_l by lra. lra.
  - apply (Rmult_le_reg_r (INR (length values))); [exact Hlen|].
    unfold Rdiv. rewrite Rmult_assoc, Rinv_l by lra. lra.
Qed.

Lemma summary_mean_within_range_witness :
  exists s,
    calculate_statistics [3; 1; 2] = Ok s
    /\ min_val s <= mean s /\ mean s <= max_val s
    /\ sample_size s = Z.of_nat (length [3; 1; 2]).
Proof. apply (summary_mean_within_range [3; 1; 2]). discriminate. Defined.

(** ** The order of the measurements does not matter *)

Lemma sum_perm l l' : Permutation l l' -> Py.sum l = Py.sum l'.
Proof.
  unfold Py.sum. induction 1; simpl; lra.
Qed.

Lemma sorted_unique a : forall b,
  StronglySorted Rle a -> StronglySorted Rle b -> Permutation a b -> a = b.
Proof.
  induction a as [|x a IH]; intros b Ha Hb HP.
  - apply Permutation_nil in HP. now subst.
  - destruct b as [|y b]; [apply Permutation_sym, Permutation_nil in HP;
                           discriminate|].
    inversion Ha as [|? ? Ha' Hx]; subst.
    inversion Hb as [|? ? Hb' Hy]; subst.
    rewrite Forall_forall in Hx, Hy.
    assert (Exy : x = y).
    { apply Rle_antisym.
      - assert (Hin : In y (x :: a))
          by (apply (Permutation_in _ (Permutation_sym HP)); now left).
        destruct Hin as [->|Hin]; [lra|now apply Hx].
      - assert (Hin : In x (y :: b))
          by (apply (Permutation_in _ HP); now left).
        destruct Hin as [->|Hin]; [lra|now apply Hy]. }
    subst y. f_equal. apply IH; try assumption.
    now apply Permutation_cons_inv in HP.
Qed.

Lemma sorted_of_perm l l' : Permutation l l' -> Py.sorted l = Py.sorted l'.
Proof.
  intros HP. apply sorted_unique; try apply sorted_sorted.
  rewrite <- (sorted_perm l), <- (sorted_perm l'). exact HP.
Qed.

Lemma len_of_perm l l' : Permutation l l' -> Py.len l = Py.len l'.
Proof. intros HP. unfold Py.len. now rewrite (Permutation_length HP). Qed.

Lemma mean_of_perm l l' : Permutation l l' -> mean_of l = mean_of l'.
Proof.
  intros HP. unfold mean_of.
  now rewrite (sum_perm _ _ HP), (Permutation_length HP).
Qed.

Lemma stdev_of_perm l l' : Permutation l l' -> stdev_of l = stdev_of l'.
Proof.
  intros HP. unfold stdev_of, statistics.ss.
  rewrite (mean_of_perm _ _ HP), (Permutation_length HP).
  now rewrite (sum_perm _ _ (Permutation_map _ HP)).
Qed.

Lemma summary_of_perm l l' : Permutation l l' -> summary_of l = summary_of l'.
Proof.
  intros HP. unfold summary_of.
  now rewrite (len_of_perm _ _ HP), (sorted_of_perm _ _ HP),
    (mean_of_perm _ _ HP), (stdev_of_perm _ _ HP).
Qed.

Lemma calculate_statistics_perm l l' :
  Permutation l l' -> calculate_statistics l = calculate_statistics l'.
Proof.
  intros HP. destruct l as [|x t].
  - apply Permutation_nil in HP. now subst.
  - assert (Hne : l' <> [])
      by (intros ->; apply Permutation_sym, Permutation_nil in HP;
          discriminate).
    rewrite !calculate_statistics_ok by (exact Hne || discriminate).
    now rewrite (summary_of_perm _ _ HP).
Qed.

Lemma ttest_of_perm b b' o o' :
  Permutation b b' -> Permutation o o' -> ttest_of b o = ttest_of b' o'.
Proof.
  intros Hb Ho. unfold ttest_of, pooled_standard_error.
  now rewrite (len_of_perm _ _ Hb), (len_of_perm _ _ Ho),
    (mean_of_perm _ _ Hb), (mean_of_perm _ _ Ho),
    (stdev_of_perm _ _ Hb), (stdev_of_perm _ _ Ho).
Qed.

Lemma effect_of_perm b b' o o' :
  Permutation b b' -> Permutation o o' -> effect_of b o = effect_of b' o'.
Proof.
  intros Hb Ho. unfold effect_of, pooled_standard_deviation.
  now rewrite (len_of_perm _ _ Hb), (len_of_perm _ _ Ho),
    (mean_of_perm _ _ Hb), (mean_of_perm _ _ Ho),
    (stdev_of_perm _ _ Hb), (stdev_of_perm _ _ Ho).
Qed.

(** X5.  Reordering the measurements of either sample changes nothing:
    [calculate_statistics] returns the same summary (or the same error), and
    [validate_performance_comparison] returns the same comparison and leaves
    the same violation list. *)
Theorem measurement_order_is_irrelevant baseline baseline' optimized
    optimized' self :
  Permutation baseline baseline' -> Permutation optimized optimized' ->
  calculate_statistics baseline = calculate_statistics baseline'
  /\ validate_performance_comparison baseline optimized self
     = validate_performance_comparison baseline' optimized' self.
Proof.
  intros Hb Ho. split; [now apply calculate_statistics_perm|].
  destruct baseline as [|x b].
  - apply Permutation_nil in Hb. subst.
    now rewrite !validate_empty_baseline.
  - assert (Nb' : baseline' <> [])
      by (intros ->; apply Permutation_sym, Permutation_nil in Hb;
          discriminate).
    destruct optimized as [|y o].
    + apply Permutation_nil in Ho. subst.
      rewrite !validate_empty_optimized by (exact Nb' || discriminate).
      unfold size_violations. now rewrite (len_of_perm _ _ Hb).
    + assert (No' : optimized' <> [])
        by (intros ->; apply Permutation_sym, Permutation_nil in Ho;
            discriminate).
      rewrite !validate_ok by (assumption || discriminate).
      unfold comparison_of, violations_of, size_violations, cv_violations.
      now rewrite (summary_of_perm _ _ Hb), (summary_of_perm _ _ Ho),
        (ttest_of_perm _ _ _ _ Hb Ho), (effect_of_perm _ _ _ _ Hb Ho),
        (len_of_perm _ _ Hb), (len_of_perm _ _ Ho).
Qed.

Lemma measurement_order_is_irrelevant_witness :
  calculate_statistics [3; 1; 2] = calculate_statistics [1; 2; 3]
  /\ validate_performance_comparison [3; 1; 2] [5; 4] (__init__ true)
     = validate_performance_comparison [1; 2; 3] [4; 5] (__init__ true).
Proof.
  apply (measurement_order_is_irrelevant [3; 1; 2] [1; 2; 3] [5; 4] [4; 5]).
  - apply (perm_trans (l' := [1; 3; 2])).
    + apply perm_swap.
    + apply perm_skip, perm_swap.
  - apply perm_swap.
Defined.

(** ** The approximate normal CDF *)

Lemma exp_le x y : x <= y -> exp x <= exp y.
Proof.
  intros [H| ->]; [apply Rlt_le, exp_increasing; exact H|apply Rle_refl].
Qed.

Lemma tanh_quotient x :
  tanh x = (exp x - exp (- x)) / (exp x + exp (- x)).
Proof.
  unfold tanh, sinh, cosh.
  pose proof (exp_pos x). pose proof (exp_pos (- x)). field. lra.
Qed.

Lemma tanh_bounds x : -1 < tanh x < 1.
Proof.
  rewrite tanh_quotient.
  pose proof (exp_pos x) as Px. pose proof (exp_pos (- x)) as Pn.
  split.
  - apply (Rmult_lt_reg_r (exp x + exp (- x))); [lra|].
    unfold Rdiv. rewrite Rmult_assoc, Rinv_l by lra. lra.
  - apply (Rmult_lt_reg_r (exp x + exp (- x))); [lra|].
    unfold Rdiv. rewrite Rmult_assoc, Rinv_l by lra. lra.
Qed.

Lemma tanh_le x y : x <= y -> tanh x <= tanh y.
Proof.
  intros Hxy. rewrite !tanh_quotient.
  pose proof (exp_pos x) as Pa. pose proof (exp_pos (- x)) as Pb.
  pose proof (exp_pos y) as Pc. pose proof (exp_pos (- y)) as Pd.
  pose proof (exp_le _ _ Hxy) as Hac.
  assert (Hdb : exp (- y) <= exp (- x)) by (apply exp_le; lra).
  apply (Rmult_le_reg_r (exp x + exp (- x))); [lra|].
  apply (Rmult_le_reg_r (exp y + exp (- y))); [lra|].
  replace ((exp x - exp (- x)) / (exp x + exp (- x))
           * (exp x + exp (- x)) * (exp y + exp (- y)))
    with ((exp x - exp (- x)) * (exp y + exp (- y))) by (field; lra).
  replace ((exp y - exp (- y)) / (exp y + exp (- y))
           * (exp x + exp (- x)) * (exp y + exp (- y)))
    with ((exp y - exp (- y)) * (exp x + exp (- x))) by (field; lra).
  nra.
Qed.

Lemma tanh_0 : tanh 0 = 0.
Proof. unfold tanh. rewrite sinh_0. unfold Rdiv. apply Rmult_0_l. Qed.

Lemma norm_cdf_range x : 0 <= _norm_cdf x <= 1.
Proof.
  unfold _norm_cdf.
  destruct (Py.Rltb 6 x); [lra|]. destruct (Py.Rltb x (-6)); [lra|].
  pose proof (tanh_bounds (x * 0.7)). lra.
Qed.

Lemma norm_cdf_0 : _norm_cdf 0 = 0.5.
Proof.
  unfold _norm_cdf.
  assert (E1 : Py.Rltb 6 0 = false) by (apply Rltb_false; lra).
  assert (E2 : Py.Rltb 0 (-6) = false) by (apply Rltb_false; lra).
  rewrite E1, E2, Rmult_0_l, tanh_0. lra.
Qed.

Lemma norm_cdf_le x y : x <= y -> _norm_cdf x <= _norm_cdf y.
Proof.
  intros Hxy. unfold _norm_cdf.
  destruct (Py.Rltb 6 x) eqn:A; [apply Rltb_true in A|apply Rltb_false in A];
  destruct (Py.Rltb x (-6)) eqn:B;
    [apply Rltb_true in B|apply Rltb_false in B
    |apply Rltb_true in B|apply Rltb_false in B];
  destruct (Py.Rltb 6 y) eqn:C;
    try (apply Rltb_true in C); try (apply Rltb_false in C);
  destruct (Py.Rltb y (-6)) eqn:D;
    try (apply Rltb_true in D); try (apply Rltb_false in D);
  try lra.
  - pose proof (tanh_bounds (y * 0.7)). lra.
  - pose proof (tanh_bounds (x * 0.7)). lra.
  - assert (H : x * 0.7 <= y * 0.7) by lra.
    pose proof (tanh_le _ _ H). lra.
Qed.

(** X6.  [_norm_cdf] takes its values in [[0, 1]], is [0.5] at 0, and is
    non-decreasing on the whole line, the saturation at both ends
    included. *)
Theorem norm_cdf_is_distribution_like :
  (forall x, 0 <= _norm_cdf x <= 1)
  /\ _norm_cdf 0 = 0.5
  /\ (forall x y, x <= y -> _norm_cdf x <= _norm_cdf y).
Proof.
  split; [exact norm_cdf_range|]. split; [exact norm_cdf_0|exact norm_cdf_le].
Qed.

Lemma norm_cdf_is_distribution_like_witness :
  _norm_cdf 1 <= _norm_cdf 2.
Proof.
  apply (proj2 (proj2 norm_cdf_is_distribution_like) 1 2). lra.
Defined.

(** ** The p-value as a function of the statistic *)

Lemma ttest_of_p_value baseline optimized :
  snd (ttest_of baseline optimized)
  = 2 * (1 - _norm_cdf (Rabs (fst (ttest_of baseline optimized)))).
Proof.
  pose proof norm_cdf_0 as H0.
  unfold ttest_of.
  destruct ((Py.len baseline <? 2) || (Py.len optimized <? 2))%bool%Z;
    cbn [fst snd]; [rewrite Rabs_R0, H0; lra|].
  destruct (Py.Reqb _ 0); cbn [fst snd]; [rewrite Rabs_R0, H0; lra|].
  destruct (clamped_p_value
              ((mean_of optimized - mean_of baseline)
               / pooled_standard_error baseline optimized)) as [Hp _].
  rewrite Hp. now rewrite norm_cdf_Phi.
Qed.

(** X7.  Whatever the samples, the p-value [two_sample_ttest] returns is
    [2 * (1 - _norm_cdf |t_stat|)] of the statistic it returns, the
    degenerate pair [(0, 1)] included.  Hence a statistic larger in
    absolute value never comes with a larger p-value, and beyond
    [|t_stat| = 6] the p-value is exactly 0. *)
Theorem p_value_decreases_with_statistic b o t p :
  two_sample_ttest b o = Ok (t, p) ->
  p = 2 * (1 - _norm_cdf (Rabs t))
  /\ (6 < Rabs t -> p = 0)
  /\ (forall b' o' t' p',
         two_sample_ttest b' o' = Ok (t', p') ->
         Rabs t <= Rabs t' -> p' <= p).
Proof.
  rewrite two_sample_ttest_ok. intros H.
  injection H as E.
  assert (Ht : t = fst (ttest_of b o)) by now rewrite E.
  assert (Hp : p = snd (ttest_of b o)) by now rewrite E.
  rewrite ttest_of_p_value, <- Ht in Hp. split; [exact Hp|]. split.
  - intros H6. rewrite Hp. unfold _norm_cdf.
    apply Rltb_true in H6. rewrite H6. lra.
  - intros b' o' t' p'. rewrite two_sample_ttest_ok. intros H' Hle.
    injection H' as E'.
    assert (Ht' : t' = fst (ttest_of b' o')) by now rewrite E'.
    assert (Hp' : p' = snd (ttest_of b' o')) by now rewrite E'.
    rewrite ttest_of_p_value, <- Ht' in Hp'.
    pose proof (norm_cdf_le _ _ Hle). lra.
Qed.

Lemma p_value_decreases_with_statistic_witness :
  1 = 2 * (1 - _norm_cdf (Rabs 0))
  /\ (6 < Rabs 0 -> 1 = 0)
  /\ (forall b' o' t' p',
         two_sample_ttest b' o' = Ok (t', p') ->
         Rabs 0 <= Rabs t' -> p' <= 1).
Proof.
  apply (p_value_decreases_with_statistic [1] [2; 3] 0 1). reflexivity.
Defined.

(** ** Swapping the two samples *)

Lemma pooled_standard_error_sym b o :
  pooled_standard_error o b = pooled_standard_error b o.
Proof. unfold pooled_standard_error. now rewrite Rplus_comm. Qed.

Lemma pooled_standard_deviation_sym b o :
  pooled_standard_deviation o b = pooled_standard_deviation b o.
Proof.
  unfold pooled_standard_deviation.
  now rewrite Rplus_comm, (Z.add_comm (Py.len o)).
Qed.

Lemma ttest_of_swap b o :
  ttest_of o b = (- fst (ttest_of b o), snd (ttest_of b o)).
Proof.
  unfold ttest_of. rewrite (pooled_standard_error_sym b o), orb_comm.
  destruct ((Py.len b <? 2) || (Py.len o <? 2))%bool%Z;
    cbn [fst snd]; [now rewrite Ropp_0|].
  destruct (Py.Reqb (pooled_standard_error b o) 0) eqn:E;
    cbn [fst snd]; [now rewrite Ropp_0|].
  apply Reqb_false in E.
  assert (Ht : (mean_of b - mean_of o) / pooled_standard_error b o
               = - ((mean_of o - mean_of b) / pooled_standard_error b o))
    by (field; exact E).
  now rewrite Ht, Rabs_Ropp.
Qed.

Lemma effect_of_swap b o : effect_of o b = - effect_of b o.
Proof.
  unfold effect_of. rewrite (pooled_standard_deviation_sym b o), orb_comm.
  destruct ((Py.len b <? 2) || (Py.len o <? 2))%bool%Z; [now rewrite Ropp_0|].
  destruct (Py.Reqb (pooled_standard_deviation b o) 0) eqn:E;
    [now rewrite Ropp_0|].
  apply Reqb_false in E. field. exact E.
Qed.

(** X8.  Exchanging baseline and optimized negates the t statistic and
    Cohen's d and leaves the p-value unchanged. *)
Theorem swapping_samples_negates_statistics b o :
  exists t p d,
    two_sample_ttest b o = Ok (t, p) /\ cohens_d b o = Ok d
    /\ two_sample_ttest o b = Ok (- t, p) /\ cohens_d o b = Ok (- d).
Proof.
  exists (fst (ttest_of b o)), (snd (ttest_of b o)), (effect_of b o).
  rewrite !two_sample_ttest_ok, !cohens_d_ok.
  rewrite (ttest_of_swap b o), (effect_of_swap b o).
  destruct (ttest_of b o) as [t p]. cbn [fst snd].
  split; [reflexivity|]. split; [reflexivity|]. split; reflexivity.
Qed.

(** ** What a completed comparison leaves in the violation list *)

Lemma validate_inv baseline optimized self comparison self' :
  validate_performance_comparison baseline optimized self
  = (Ok comparison, self') ->
  baseline <> [] /\ optimized <> []
  /\ comparison = comparison_of baseline optimized
  /\ self' = with_violations self (violations_of baseline optimized).
Proof.
  intros H. destruct baseline as [|x b].
  - rewrite validate_empty_baseline in H. discriminate H.
  - destruct optimized as [|y o].
    + rewrite validate_empty_optimized in H by discriminate. discriminate H.
    + rewrite validate_ok in H by discriminate.
      injection H as <- <-. repeat split; discriminate.
Qed.

Lemma violations_empty_iff b o :
  violations_of b o = []
  <-> (MIN_SAMPLE_SIZE <= Py.len b)%Z /\ (MIN_SAMPLE_SIZE <= Py.len o)%Z
      /\ coefficient_variation (summary_of b) <= MAX_CV
      /\ coefficient_variation (summary_of o) <= MAX_CV.
Proof.
  unfold violations_of, size_violations, cv_violations.
  destruct (Z.ltb_spec (Py.len b) MIN_SAMPLE_SIZE);
    [|destruct (Z.ltb_spec (Py.len o) MIN_SAMPLE_SIZE)];
    destruct (Py.Rltb MAX_CV (coefficient_variation (summary_of b))) eqn:Eb;
    destruct (Py.Rltb MAX_CV (coefficient_variation (summary_of o))) eqn:Eo;
    try (apply Rltb_true in Eb); try (apply Rltb_false in Eb);
    try (apply Rltb_true in Eo); try (apply Rltb_false in Eo);
    cbn [app]; split; try discriminate;
    try (intros (? & ? & ? & ?); exfalso; (lia || lra));
    intros _; repeat split; assumption.
Qed.

Lemma violations_length b o : (length (violations_of b o) <= 3)%nat.
Proof.
  unfold violations_of, size_violations, cv_violations.
  destruct (Py.len b <? MIN_SAMPLE_SIZE)%Z;
    [|destruct (Py.len o <? MIN_SAMPLE_SIZE)%Z];
    destruct (Py.Rltb MAX_CV (coefficient_variation (summary_of b)));
    destruct (Py.Rltb MAX_CV (coefficient_variation (summary_of o)));
    simpl; lia.
Qed.

(** X9.  After a call of [validate_performance_comparison] that returned,
    the violation list is empty exactly when both samples have at least
    [MIN_SAMPLE_SIZE] elements and both coefficients of variation are at
    most [MAX_CV]; it never holds more than three entries. *)
Theorem violations_after_comparison baseline optimized self comparison self' :
  validate_performance_comparison baseline optimized self
  = (Ok comparison, self') ->
  (violations self' = []
   <-> (MIN_SAMPLE_SIZE <= Py.len baseline)%Z
       /\ (MIN_SAMPLE_SIZE <= Py.len optimized)%Z
       /\ coefficient_variation (baseline_stats comparison) <= MAX_CV
       /\ coefficient_variation (optimized_stats comparison) <= MAX_CV)
  /\ (length (violations self') <= 3)%nat.
Proof.
  intros H. destruct (validate_inv _ _ _ _ _ H) as (_ & _ & -> & ->).
  cbn [with_violations violations comparison_of baseline_stats
       optimized_stats].
  split; [apply violations_empty_iff|apply violations_length].
Qed.

Lemma violations_after_comparison_witness :
  (violations (with_violations (__init__ true) (violations_of [1] [1])) = []
   <-> (MIN_SAMPLE_SIZE <= Py.len [1%R])%Z
       /\ (MIN_SAMPLE_SIZE <= Py.len [1%R])%Z
       /\ coefficient_variation (baseline_stats (comparison_of [1] [1]))
          <= MAX_CV
       /\ coefficient_variation (optimized_stats (comparison_of [1] [1]))
          <= MAX_CV)
  /\ (length (violations
                (with_violations (__init__ true)
                   (violations_of [1%R] [1%R])))
      <= 3)%nat.
Proof.
  apply (violations_after_comparison [1] [1] (__init__ true)).
  apply validate_ok; discriminate.
Defined.

(** X10.  After a call that returned, [sample_adequate] adds nothing to the
    gate: an inadequate sample has already put a message in the violation
    list, so the verdict of [_is_claim_valid] is the conjunction of the two
    significance flags and of the emptiness of the list. *)
Theorem sample_adequacy_is_implied baseline optimized self comparison self' :
  validate_performance_comparison baseline optimized self
  = (Ok comparison, self') ->
  (sample_adequate comparison = false -> violations self' <> [])
  /\ fst (_is_claim_valid comparison self')
     = Ok (statistical_significance comparison
           && practical_significance comparison
           && match violations self' with [] => true | _ :: _ => false end).
Proof.
  intros H. destruct (validate_inv _ _ _ _ _ H) as (_ & _ & -> & ->).
  unfold _is_claim_valid.
  cbn [with_violations violations comparison_of sample_adequate
       statistical_significance practical_significance fst].
  pose proof (violations_empty_iff baseline optimized) as Hiff.
  destruct (Z.leb_spec MIN_SAMPLE_SIZE (Py.len baseline)) as [Hb|Hb];
    [destruct (Z.leb_spec MIN_SAMPLE_SIZE (Py.len optimized)) as [Ho|Ho]|];
    cbn [andb].
  - split; [discriminate|].
    destruct (violations_of baseline optimized); reflexivity.
  - assert (Hne : violations_of baseline optimized <> [])
      by (intros E; apply Hiff in E; lia).
    split; [intros _; exact Hne|].
    destruct (violations_of baseline optimized); [easy|].
    now rewrite !andb_false_r.
  - assert (Hne : violations_of baseline optimized <> [])
      by (intros E; apply Hiff in E; lia).
    split; [intros _; exact Hne|].
    destruct (violations_of baseline optimized); [easy|].
    now rewrite !andb_false_r.
Qed.

Lemma sample_adequacy_is_implied_witness :
  (sample_adequate (comparison_of [1] [1]) = false ->
   violations (with_violations (__init__ true) (violations_of [1] [1])) <> [])
  /\ fst (_is_claim_valid (comparison_of [1] [1])
            (with_violations (__init__ true) (violations_of [1] [1])))
     = Ok (statistical_significance (comparison_of [1] [1])
           && practical_significance (comparison_of [1] [1])
           && match violations
                      (with_violations (__init__ true)
                         (violations_of [1] [1]))
              with [] => true | _ :: _ => false end).
Proof.
  apply (sample_adequacy_is_implied [1] [1] (__init__ true)).
  apply validate_ok; discriminate.
Defined.

(** ** The gate does not look at the direction of the change *)

(** X11.  Validating the samples in the opposite roles negates
    [improvement_absolute] and Cohen's d, keeps the p-value and the three
    flags, and gives the same verdict: a slow-down passes
    [_is_claim_valid] as readily as the speed-up of the same size. *)
Theorem verdict_ignores_direction baseline optimized self :
  baseline <> [] -> optimized <> [] ->
  exists c1 s1 c2 s2,
    validate_performance_comparison baseline optimized self = (Ok c1, s1)
    /\ validate_performance_comparison optimized baseline self = (Ok c2, s2)
    /\ improvement_absolute c2 = - improvement_absolute c1
    /\ cohens_d_value c2 = - cohens_d_value c1
    /\ p_value c2 = p_value c1
    /\ statistical_significance c2 = statistical_significance c1
    /\ practical_significance c2 = practical_significance c1
    /\ sample_adequate c2 = sample_adequate c1
    /\ fst (_is_claim_valid c2 s2) = fst (_is_claim_valid c1 s1).
Proof.
  intros Nb No. do 4 eexists.
  split; [now apply validate_ok|]. split; [now apply validate_ok|].
  unfold _is_claim_valid, comparison_of.
  cbn [improvement_absolute cohens_d_value p_value statistical_significance
       practical_significance sample_adequate with_violations violations
       mean fst].
  rewrite (ttest_of_swap baseline optimized),
    (effect_of_swap baseline optimized). cbn [snd]. rewrite Rabs_Ropp.
  split; [unfold summary_of; cbn [mean]; lra|].
  split; [reflexivity|]. split; [reflexivity|]. split; [reflexivity|].
  split; [reflexivity|]. split; [apply andb_comm|].
  rewrite (andb_comm (MIN_SAMPLE_SIZE <=? Py.len optimized)%Z).
  pose proof (violations_empty_iff baseline optimized) as H1.
  pose proof (violations_empty_iff optimized baseline) as H2.
  destruct (violations_of baseline optimized) as [|v vs],
    (violations_of optimized baseline) as [|w ws]; try reflexivity.
  - exfalso. assert (E : @nil Violation = []) by reflexivity.
    apply H1 in E. destruct H2 as [_ H2]. discriminate H2. tauto.
  - exfalso. assert (E : @nil Violation = []) by reflexivity.
    apply H2 in E. destruct H1 as [_ H1]. discriminate H1. tauto.
Qed.

Lemma verdict_ignores_direction_witness :
  exists c1 s1 c2 s2,
    validate_performance_comparison [1; 2] [3; 5] (__init__ true)
    = (Ok c1, s1)
    /\ validate_performance_comparison [3; 5] [1; 2] (__init__ true)
       = (Ok c2, s2)
    /\ improvement_absolute c2 = - improvement_absolute c1
    /\ cohens_d_value c2 = - cohens_d_value c1
    /\ p_value c2 = p_value c1
    /\ statistical_significance c2 = statistical_significance c1
    /\ practical_significance c2 = practical_significance c1
    /\ sample_adequate c2 = sample_adequate c1
    /\ fst (_is_claim_valid c2 s2) = fst (_is_claim_valid c1 s1).
Proof.
  apply (verdict_ignores_direction [1; 2] [3; 5]); discriminate.
Defined.

(** ** Samples with the same mean *)

Lemma equal_means_statistics baseline optimized :
  mean_of baseline = mean_of optimized ->
  ttest_of baseline optimized = (0, 1) /\ effect_of baseline optimized = 0.
Proof.
  intros Hm. split.
  - unfold ttest_of. destruct (_ || _)%bool; [reflexivity|].
    destruct (Py.Reqb _ 0) eqn:E; [reflexivity|]. apply Reqb_false in E.
    pose proof norm_cdf_0 as H0.
    rewrite Hm. replace ((mean_of optimized - mean_of optimized)
                         / pooled_standard_error baseline optimized)
      with 0 by (field; exact E).
    rewrite Rabs_R0, H0. f_equal. rewrite Rmin_left by lra. lra.
  - unfold effect_of. destruct (_ || _)%bool; [reflexivity|].
    destruct (Py.Reqb _ 0) eqn:E; [reflexivity|]. apply Reqb_false in E.
    rewrite Hm. field. exact E.
Qed.

Lemma unit_p_value_is_not_significant :
  Py.Rltb 1 SIGNIFICANCE_LEVEL = false.
Proof. apply Rltb_false. unfold SIGNIFICANCE_LEVEL. lra. Qed.

(** X12.  When the two samples have the same mean the comparison reports no
    change: [improvement_absolute] and [improvement_percent] are 0, the
    p-value is 1, Cohen's d is 0, neither significance flag is set and the
    claim is not valid. *)
Theorem equal_means_never_validate baseline optimized self :
  baseline <> [] -> optimized <> [] ->
  statistics.mean baseline = statistics.mean optimized ->
  exists c self',
    validate_performance_comparison baseline optimized self = (Ok c, self')
    /\ improvement_absolute c = 0 /\ improvement_percent c = 0
    /\ p_value c = 1 /\ cohens_d_value c = 0
    /\ statistical_significance c = false
    /\ practical_significance c = false
    /\ fst (_is_claim_valid c self') = Ok false.
Proof.
  intros Nb No Hm. rewrite !mean_ok in Hm by assumption.
  injection Hm as Hm. do 2 eexists. split; [now apply validate_ok|].
  destruct (equal_means_statistics _ _ Hm) as [Ht Hd].
  unfold _is_claim_valid, comparison_of.
  cbn [improvement_absolute improvement_percent p_value cohens_d_value
       statistical_significance practical_significance sample_adequate fst].
  rewrite Ht, Hd. cbn [snd]. rewrite Rabs_R0.
  assert (Ep : Py.Rleb MIN_EFFECT_SIZE 0 = false)
    by (apply Rleb_false; unfold MIN_EFFECT_SIZE; lra).
  rewrite unit_p_value_is_not_significant, Ep.
  assert (Hdiff : mean (summary_of optimized) - mean (summary_of baseline) = 0)
    by (unfold summary_of; cbn [mean]; lra).
  rewrite Hdiff.
  split; [reflexivity|].
  split; [destruct (Py.Reqb _ 0); [reflexivity|unfold Rdiv; lra]|].
  repeat (split; [reflexivity|]).
  now rewrite andb_false_r.
Qed.

Lemma equal_means_never_validate_witness :
  exists c self',
    validate_performance_comparison [1; 3] [2; 2] (__init__ true)
    = (Ok c, self')
    /\ improvement_absolute c = 0 /\ improvement_percent c = 0
    /\ p_value c = 1 /\ cohens_d_value c = 0
    /\ statistical_significance c = false
    /\ practical_significance c = false
    /\ fst (_is_claim_valid c self') = Ok false.
Proof.
  apply (equal_means_never_validate [1; 3] [2; 2]); try discriminate.
  unfold statistics.mean. f_equal. unfold Py.sum. simpl. lra.
Defined.

(** ** Report helpers *)

(** X15.  The wording of the effect size depends only on [|d|], and for a
    comparison that [validate_performance_comparison] returned the effect is
    worded "Medium effect" or "Large effect" exactly when
    [practical_significance] is set. *)
Theorem effect_wording_matches_practical_significance :
  (forall d, _interpret_effect_size (- d) = _interpret_effect_size d)
  /\ (forall baseline optimized self comparison self',
         validate_performance_comparison baseline optimized self
         = (Ok comparison, self') ->
         (practical_significance comparison = true
          <-> _interpret_effect_size (cohens_d_value comparison)
              = "Medium effect"%string
              \/ _interpret_effect_size (cohens_d_value comparison)
                 = "Large effect"%string)).
Proof.
  split.
  - intros d. unfold _interpret_effect_size. now rewrite Rabs_Ropp.
  - intros baseline optimized self comparison self' H.
    destruct (validate_inv _ _ _ _ _ H) as (_ & _ & -> & _).
    unfold comparison_of, _interpret_effect_size, MIN_EFFECT_SIZE.
    cbn [practical_significance cohens_d_value].
    set (a := Rabs (effect_of baseline optimized)).
    destruct (Py.Rleb 0.5 a) eqn:E;
      [apply Rleb_true in E|apply Rleb_false in E];
      destruct (Py.Rltb a 0.2) eqn:E1;
      [apply Rltb_true in E1|apply Rltb_false in E1
      |apply Rltb_true in E1|apply Rltb_false in E1];
      try lra;
      destruct (Py.Rltb a 0.5) eqn:E2;
      try (apply Rltb_true in E2); try (apply Rltb_false in E2);
      try lra;
      destruct (Py.Rltb a 0.8);
      split; intros H'; try discriminate H'; try reflexivity;
      try (now left); try (now right);
      destruct H' as [H'|H']; discriminate H'.
Qed.

Lemma effect_wording_matches_practical_significance_witness :
  practical_significance (comparison_of [1; 2] [3; 5]) = true
  <-> _interpret_effect_size (cohens_d_value (comparison_of [1; 2] [3; 5]))
      = "Medium effect"%string
      \/ _interpret_effect_size
           (cohens_d_value (comparison_of [1; 2] [3; 5]))
         = "Large effect"%string.
Proof.
  apply (proj2 effect_wording_matches_practical_significance
           [1; 2] [3; 5] (__init__ true) (comparison_of [1; 2] [3; 5])
           (with_violations (__init__ true) (violations_of [1; 2] [3; 5]))).
  apply validate_ok; discriminate.
Defined.

Lemma recommendations_all_met comparison self :
  fst (_generate_recommendations comparison self)
  = Ok ("- " ++ ALL_CRITERIA_MET)%string
  <-> sample_adequate comparison = true
      /\ statistical_significance comparison = true
      /\ practical_significance comparison = true
      /\ Py.Rltb MAX_CV (coefficient_variation (baseline_stats comparison))
         = false
      /\ violations self = [].
Proof.
  unfold _generate_recommendations, recommendation_list. cbn [fst].
  destruct (sample_adequate comparison),
    (statistical_significance comparison),
    (practical_significance comparison),
    (Py.Rltb MAX_CV (coefficient_variation (baseline_stats comparison))),
    (violations self) as [|v vs];
    cbn [negb app]; split;
    try (intros _; repeat split; reflexivity);
    try (intros (? & ? & ? & ? & ?); discriminate);
    try (intros H; vm_compute in H; discriminate H).
Qed.

Lemma claim_valid_gate comparison self :
  fst (_is_claim_valid comparison self) = Ok true
  <-> sample_adequate comparison = true
      /\ statistical_significance comparison = true
      /\ practical_significance comparison = true
      /\ violations self = [].
Proof.
  unfold _is_claim_valid. cbn [fst].
  destruct (sample_adequate comparison),
    (statistical_significance comparison),
    (practical_significance comparison),
    (violations self) as [|v vs]; cbn; split;
    try (intros _; repeat split; reflexivity);
    try (intros (? & ? & ? & ?); discriminate);
    try (intros H; discriminate H).
Qed.

(** X16.  For a comparison that [validate_performance_comparison] returned,
    [_generate_recommendations] answers with the single line
    "- All validation criteria met ..." exactly when [_is_claim_valid]
    holds; it leaves the validator as it was. *)
Theorem recommendations_agree_with_verdict baseline optimized self
    comparison self' :
  validate_performance_comparison baseline optimized self
  = (Ok comparison, self') ->
  (fst (_generate_recommendations comparison self')
   = Ok ("- " ++ ALL_CRITERIA_MET)%string
   <-> fst (_is_claim_valid comparison self') = Ok true)
  /\ snd (_generate_recommendations comparison self') = self'.
Proof.
  intros H. split; [|reflexivity].
  rewrite recommendations_all_met, claim_valid_gate.
  destruct (validate_inv _ _ _ _ _ H) as (_ & _ & Hc & Hs).
  split.
  - intros (H1 & H2 & H3 & _ & H5). now repeat split.
  - intros (H1 & H2 & H3 & H5). repeat split; try assumption.
    subst. cbn [with_violations violations] in H5.
    apply violations_empty_iff in H5. destruct H5 as (_ & _ & Hcv & _).
    apply Rltb_false. exact Hcv.
Qed.

Lemma recommendations_agree_with_verdict_witness :
  (fst (_generate_recommendations (comparison_of [1] [1])
          (with_violations (__init__ true) (violations_of [1] [1])))
   = Ok ("- " ++ ALL_CRITERIA_MET)%string
   <-> fst (_is_claim_valid (comparison_of [1] [1])
              (with_violations (__init__ true) (violations_of [1] [1])))
       = Ok true)
  /\ snd (_generate_recommendations (comparison_of [1] [1])
            (with_violations (__init__ true) (violations_of [1] [1])))
     = with_violations (__init__ true) (violations_of [1] [1]).
Proof.
  apply (recommendations_agree_with_verdict [1] [1] (__init__ true)).
  apply validate_ok; discriminate.
Defined.

(** ** The benchmark harness *)

Lemma benchmark_loop_ok env : forall remaining i results,
  (forall j e, (i <= j < i + remaining)%nat ->
               subprocess_run env j <> Failed e) ->
  benchmark_loop env i remaining results
  = Ok (results ++ map (recorded env) (seq i remaining)).
Proof.
  induction remaining as [|k IH]; intros i results Hok.
  - simpl. now rewrite app_nil_r.
  - cbn [benchmark_loop seq map].
    assert (Hi : forall e, subprocess_run env i <> Failed e)
      by (intros e; apply Hok; lia).
    assert (Hrest : forall j e, (S i <= j < S i + k)%nat ->
                                subprocess_run env j <> Failed e)
      by (intros j e Hj; apply Hok; lia).
    unfold recorded at 1.
    destruct (subprocess_run env i) as [rc out err| |e].
    + destruct (rc =? 0)%Z; rewrite (IH _ _ Hrest), <- app_assoc;
        reflexivity.
    + rewrite (IH _ _ Hrest), <- app_assoc. reflexivity.
    + now elim (Hi e).
Qed.

Lemma benchmark_loop_raises env e : forall remaining i results j,
  (i <= j < i + remaining)%nat ->
  subprocess_run env j = Failed e ->
  (forall j' e', (i <= j' < j)%nat -> subprocess_run env j' <> Failed e') ->
  benchmark_loop env i remaining results = Raise e.
Proof.
  induction remaining as [|k IH]; intros i results j Hj He Hbefore; [lia|].
  cbn [benchmark_loop].
  destruct (Nat.eq_dec i j) as [->|Hne].
  - now rewrite He.
  - assert (Hi : forall e', subprocess_run env i <> Failed e')
      by (intros e'; apply Hbefore; lia).
    assert (Hrest : forall j' e', (S i <= j' < j)%nat ->
                                  subprocess_run env j' <> Failed e')
      by (intros j' e' Hj'; apply Hbefore; lia).
    destruct (subprocess_run env i) as [rc out err| |e0].
    + destruct (rc =? 0)%Z; apply (IH _ _ j); (lia || assumption).
    + apply (IH _ _ j); (lia || assumption).
    + now elim (Hi e0).
Qed.

Lemma recorded_shape env i :
  timestamp (recorded env i) = datetime_now env i
  /\ (success (recorded env i) = true
      <-> exists out err, subprocess_run env i = Completed 0 out err)
  /\ (success (recorded env i) = true ->
      latency_ms (recorded env i) = 150
      /\ throughput_rps (recorded env i) = 30
      /\ metadata (recorded env i) = None)
  /\ (success (recorded env i) = false ->
      latency_ms (recorded env i) = 0 /\ throughput_rps (recorded env i) = 0).
Proof.
  unfold recorded.
  destruct (subprocess_run env i) as [rc out err| |e];
    [destruct (Z.eqb_spec rc 0) as [->|Hrc]| |]; cbn;
    (split; [reflexivity|]); (split; [split|]);
    try discriminate; try (intros (? & ? & ?); congruence);
    try (intros _; now eauto); try (split; intros; try discriminate);
    try (repeat split; reflexivity).
Qed.

(** X17.  When no subprocess call raises anything but a timeout,
    [run_benchmark] returns one record per request, in order; the record of
    request [j] carries that iteration's timestamp, is a success exactly
    when the process exited with code 0, reports the fixed 150 ms and
    30 req/s when it is a success and 0 for both when it is not (a timeout
    or a non-zero exit is recorded, not raised). *)
Theorem run_benchmark_records_every_request env binary_path url requests
    concurrency :
  (forall j e, (j < Z.to_nat requests)%nat ->
               subprocess_run env j <> Failed e) ->
  exists results,
    snd (run_benchmark env binary_path url requests concurrency) = Ok results
    /\ length results = Z.to_nat requests
    /\ forall j, (j < Z.to_nat requests)%nat ->
       exists r,
         nth_error results j = Some r
         /\ timestamp r = datetime_now env j
         /\ (success r = true
             <-> exists out err, subprocess_run env j = Completed 0 out err)
         /\ (success r = true ->
             latency_ms r = 150 /\ throughput_rps r = 30
             /\ metadata r = None)
         /\ (success r = false -> latency_ms r = 0 /\ throughput_rps r = 0).
Proof.
  intros Hok. unfold run_benchmark. cbn [snd].
  rewrite benchmark_loop_ok by (intros j e Hj; apply Hok; lia).
  eexists. split; [reflexivity|]. cbn [app].
  split; [now rewrite length_map, length_seq|].
  intros j Hj. exists (recorded env j). split.
  - rewrite nth_error_map, nth_error_seq.
    destruct (Nat.ltb_spec j (Z.to_nat requests)); [reflexivity|lia].
  - apply recorded_shape.
Qed.

Lemma run_benchmark_records_every_request_witness :
  exists results,
    snd (run_benchmark
           (mkEnvironment
              (fun j => if Nat.even j then Completed 0 "ok" ""
                        else TimeoutExpired)
              (fun _ => "2024-01-01T00:00:00"%string))
           "bench" "http://localhost" 3 10)
    = Ok results
    /\ length results = 3%nat.
Proof.
  destruct (run_benchmark_records_every_request
              (mkEnvironment
                 (fun j => if Nat.even j then Completed 0 "ok" ""
                           else TimeoutExpired)
                 (fun _ => "2024-01-01T00:00:00"%string))
              "bench" "http://localhost" 3 10) as (results & Hrun & Hlen & _).
  - intros j e _. cbn [subprocess_run]. destruct (Nat.even j); discriminate.
  - exists results. split; [exact Hrun|exact Hlen].
Defined.

(** X18.  Only a timeout is caught: when a subprocess call raises another
    exception, [run_benchmark] raises it at the first such request and
    returns none of the records made so far. *)
Theorem run_benchmark_propagates_other_errors env binary_path url requests
    concurrency j e :
  (j < Z.to_nat requests)%nat ->
  subprocess_run env j = Failed e ->
  (forall j' e', (j' < j)%nat -> subprocess_run env j' <> Failed e') ->
  snd (run_benchmark env binary_path url requests concurrency) = Raise e.
Proof.
  intros Hj He Hbefore. unfold run_benchmark. cbn [snd].
  apply (benchmark_loop_raises env e _ _ _ j); [lia|exact He|].
  intros j' e' Hj'. apply Hbefore. lia.
Qed.

Lemma run_benchmark_propagates_other_errors_witness :
  snd (run_benchmark
         (mkEnvironment
            (fun j => if (j =? 1)%nat then Failed (ValueError "embedded null byte")
                      else Completed 0 "ok" "")
            (fun _ => "2024-01-01T00:00:00"%string))
         "bench" "http://localhost" 3 10)
  = Raise (ValueError "embedded null byte").
Proof.
  apply (run_benchmark_propagates_other_errors _ _ _ _ _ 1%nat).
  - simpl. lia.
  - reflexivity.
  - intros j' e' Hj'. cbn [subprocess_run].
    destruct (Nat.eqb_spec j' 1); [lia|discriminate].
Defined.

(** ** Validating what the harness measures *)

Lemma successful_latencies_recorded env l :
  successful_latencies (map (recorded env) l)
  = repeat 150 (length (successful_latencies (map (recorded env) l))).
Proof.
  unfold successful_latencies. induction l as [|j t IH]; [reflexivity|].
  cbn [map filter]. destruct (success (recorded env j)) eqn:E; [|exact IH].
  destruct (recorded_shape env j) as (_ & _ & Hs & _).
  destruct (Hs E) as (Hl & _). cbn [map length repeat].
  now rewrite Hl, <- IH.
Qed.

Lemma benchmark_loop_inv env : forall remaining i acc results,
  benchmark_loop env i remaining acc = Ok results ->
  results = acc ++ map (recorded env) (seq i remaining).
Proof.
  induction remaining as [|k IH]; intros i acc results H.
  - simpl in *. injection H as <-. now rewrite app_nil_r.
  - cbn [benchmark_loop seq map] in *. unfold recorded at 1.
    destruct (subprocess_run env i) as [rc out err| |e].
    + destruct (rc =? 0)%Z; apply IH in H; rewrite H, <- app_assoc;
        reflexivity.
    + apply IH in H. rewrite H, <- app_assoc. reflexivity.
    + discriminate H.
Qed.

Lemma run_benchmark_latencies env binary_path url requests concurrency
    results :
  snd (run_benchmark env binary_path url requests concurrency) = Ok results ->
  exists n, successful_latencies results = repeat 150 n.
Proof.
  unfold run_benchmark. cbn [snd]. intros H.
  apply benchmark_loop_inv in H. cbn [app] in H. subst results.
  eexists. apply successful_latencies_recorded.
Qed.

(** X19.  As [main] uses the harness (two [run_benchmark] calls, the
    latencies of the successful records as the two samples), validation can
    never pass: every successful record carries the same fixed latency, so
    either one sample is empty and [validate_performance_comparison] raises
    the empty-dataset error, or the comparison reports no change, a p-value
    of 1 and no statistical significance, and [_is_claim_valid] is false. *)
Theorem benchmark_mode_never_validates env_baseline env_optimized binary_path
    url requests concurrency baseline_results optimized_results self :
  snd (run_benchmark env_baseline binary_path url requests concurrency)
  = Ok baseline_results ->
  snd (run_benchmark env_optimized binary_path url requests concurrency)
  = Ok optimized_results ->
  let baseline_latencies := successful_latencies baseline_results in
  let optimized_latencies := successful_latencies optimized_results in
  (baseline_latencies = [] \/ optimized_latencies = [] ->
   fst (validate_performance_comparison
          baseline_latencies optimized_latencies self)
   = Raise EMPTY_DATASET)
  /\ (baseline_latencies <> [] -> optimized_latencies <> [] ->
      exists comparison self',
        validate_performance_comparison
          baseline_latencies optimized_latencies self
        = (Ok comparison, self')
        /\ improvement_absolute comparison = 0
        /\ p_value comparison = 1
        /\ statistical_significance comparison = false
        /\ fst (_is_claim_valid comparison self') = Ok false).
Proof.
  intros Hb Ho. cbn zeta.
  destruct (run_benchmark_latencies _ _ _ _ _ _ Hb) as [n1 E1].
  destruct (run_benchmark_latencies _ _ _ _ _ _ Ho) as [n2 E2].
  rewrite E1, E2. clear Hb Ho E1 E2. split.
  - intros [E|E].
    + rewrite E. now rewrite validate_empty_baseline.
    + rewrite E. destruct (repeat 150 n1) as [|x t].
      * now rewrite validate_empty_baseline.
      * now rewrite validate_empty_optimized by discriminate.
  - intros Nb No. do 2 eexists. split; [now apply validate_ok|].
    assert (H1 : (1 <= n1)%nat) by (destruct n1; [now elim Nb|lia]).
    assert (H2 : (1 <= n2)%nat) by (destruct n2; [now elim No|lia]).
    assert (Hm : mean_of (repeat 150 n1) = mean_of (repeat 150 n2))
      by now rewrite !mean_of_repeat.
    destruct (equal_means_statistics _ _ Hm) as [Ht _].
    unfold _is_claim_valid, comparison_of.
    cbn [improvement_absolute p_value statistical_significance
         practical_significance sample_adequate fst].
    rewrite Ht. cbn [snd]. rewrite unit_p_value_is_not_significant.
    split; [unfold summary_of; cbn [mean]; lra|].
    split; [reflexivity|]. split; [reflexivity|].
    now rewrite andb_false_r.
Qed.

Lemma benchmark_mode_never_validates_witness :
  exists comparison self',
    validate_performance_comparison
      (successful_latencies
         (map (recorded (mkEnvironment (fun _ => Completed 0 "ok" "")
                           (fun _ => "2024-01-01T00:00:00"%string)))
              (seq 0 3)))
      (successful_latencies
         (map (recorded (mkEnvironment (fun _ => Completed 0 "ok" "")
                           (fun _ => "2024-01-01T00:00:01"%string)))
              (seq 0 3)))
      (__init__ true)
    = (Ok comparison, self')
    /\ improvement_absolute comparison = 0
    /\ p_value comparison = 1
    /\ statistical_significance comparison = false
    /\ fst (_is_claim_valid comparison self') = Ok false.
Proof.
  apply (proj2 (benchmark_mode_never_validates
                  (mkEnvironment (fun _ => Completed 0 "ok" "")
                     (fun _ => "2024-01-01T00:00:00"%string))
                  (mkEnvironment (fun _ => Completed 0 "ok" "")
                     (fun _ => "2024-01-01T00:00:01"%string))
                  "bench" "http://localhost" 3 10 _ _ (__init__ true)
                  eq_refl eq_refl)); discriminate.
Defined.

(** ** More on the error path and on the validator's state *)

(** X20.  With a non-empty baseline and an empty optimized sample the call
    raises the empty-dataset error and leaves exactly one message in the
    violation list: the baseline's when the baseline is too small (the
    optimized sample is then not checked), otherwise
    "Insufficient sample size: 0 < 30" for the optimized sample. *)
Theorem empty_optimized_error_leaves_violation baseline self :
  baseline <> [] ->
  exists self',
    validate_performance_comparison baseline [] self
    = (Raise EMPTY_DATASET, self')
    /\ ((Py.len baseline < MIN_SAMPLE_SIZE)%Z ->
        violations self' = [insufficient_sample_size (Py.len baseline)])
    /\ ((MIN_SAMPLE_SIZE <= Py.len baseline)%Z ->
        violations self' = [Message "Insufficient sample size: 0 < 30"]).
Proof.
  intros Nb. eexists. split; [now apply validate_empty_optimized|].
  cbn [with_violations violations]. unfold size_violations.
  destruct (Z.ltb_spec (Py.len baseline) MIN_SAMPLE_SIZE);
    split; intros; try lia; reflexivity.
Qed.

Lemma empty_optimized_error_leaves_violation_witness :
  exists self',
    validate_performance_comparison [1; 2] [] (__init__ true)
    = (Raise EMPTY_DATASET, self')
    /\ violations self' = [Message "Insufficient sample size: 2 < 30"].
Proof.
  destruct (empty_optimized_error_leaves_violation [1; 2] (__init__ true))
    as (self' & Hrun & Hshort & _); [discriminate|].
  exists self'. split; [exact Hrun|].
  apply Hshort. reflexivity.
Defined.

(** X21.  [strict_mode] has no effect on a comparison: whatever the flag
    and whatever the violation list held before, the call returns the same
    result (or raises the same error) and leaves the same violation list;
    the flag itself is left as it was. *)
Theorem strict_mode_is_not_consulted baseline optimized self1 self2 :
  fst (validate_performance_comparison baseline optimized self1)
  = fst (validate_performance_comparison baseline optimized self2)
  /\ violations (snd (validate_performance_comparison baseline optimized
                        self1))
     = violations (snd (validate_performance_comparison baseline optimized
                          self2))
  /\ strict_mode (snd (validate_performance_comparison baseline optimized
                         self1))
     = strict_mode self1.
Proof.
  destruct baseline as [|x b].
  - rewrite !validate_empty_baseline. now repeat split.
  - destruct optimized as [|y o].
    + rewrite !validate_empty_optimized by discriminate. now repeat split.
    + rewrite !validate_ok by discriminate. now repeat split.
Qed.

(** ** The interval of the difference and the t statistic *)

(** X22.  When both samples have at least two elements, the confidence
    interval of the difference is [improvement_absolute] minus and plus
    1.96 times the very standard error [two_sample_ttest] divides by, and,
    when that standard error is not 0, the t statistic is
    [improvement_absolute] over it. *)
Theorem difference_interval_and_statistic baseline optimized self :
  (2 <= length baseline)%nat -> (2 <= length optimized)%nat ->
  exists c self' t p,
    validate_performance_comparison baseline optimized self = (Ok c, self')
    /\ two_sample_ttest baseline optimized = Ok (t, p)
    /\ confidence_interval_diff c
       = (improvement_absolute c
          - 1.96 * pooled_standard_error baseline optimized,
          improvement_absolute c
          + 1.96 * pooled_standard_error baseline optimized)
    /\ (pooled_standard_error baseline optimized <> 0 ->
        t = improvement_absolute c
            / pooled_standard_error baseline optimized).
Proof.
  intros Hb Ho.
  assert (Nb : baseline <> []) by (intros ->; simpl in Hb; lia).
  assert (No : optimized <> []) by (intros ->; simpl in Ho; lia).
  assert (Lb : (1 < Py.len baseline)%Z) by (unfold Py.len; lia).
  assert (Lo : (1 < Py.len optimized)%Z) by (unfold Py.len; lia).
  exists (comparison_of baseline optimized),
    (with_violations self (violations_of baseline optimized)),
    (fst (ttest_of baseline optimized)), (snd (ttest_of baseline optimized)).
  split; [now apply validate_ok|].
  split; [rewrite two_sample_ttest_ok; now destruct (ttest_of _ _)|].
  unfold comparison_of.
  cbn [confidence_interval_diff improvement_absolute].
  rewrite !std_dev_summary by assumption.
  fold (pooled_standard_error baseline optimized).
  destruct (Z.ltb_spec 1 (Py.len baseline)); [|lia].
  destruct (Z.ltb_spec 1 (Py.len optimized)); [|lia]. cbn [andb].
  split; [reflexivity|]. intros Hse.
  unfold ttest_of.
  destruct (Z.ltb_spec (Py.len baseline) 2); [lia|].
  destruct (Z.ltb_spec (Py.len optimized) 2); [lia|]. cbn [orb].
  apply Reqb_false in Hse. rewrite Hse. reflexivity.
Qed.

Lemma difference_interval_and_statistic_witness :
  exists c self' t p,
    validate_performance_comparison [0; 2] [1; 3] (__init__ true)
    = (Ok c, self')
    /\ two_sample_ttest [0; 2] [1; 3] = Ok (t, p)
    /\ confidence_interval_diff c
       = (improvement_absolute c
          - 1.96 * pooled_standard_error [0; 2] [1; 3],
          improvement_absolute c
          + 1.96 * pooled_standard_error [0; 2] [1; 3])
    /\ t = improvement_absolute c / pooled_standard_error [0; 2] [1; 3].
Proof.
  destruct (difference_interval_and_statistic [0; 2] [1; 3] (__init__ true))
    as (c & self' & t & p & Hrun & Ht & Hci & Hstat);
    [simpl; lia|simpl; lia|].
  exists c, self', t, p. split; [exact Hrun|]. split; [exact Ht|].
  split; [exact Hci|]. apply Hstat. exact pooled_standard_error_example.
Defined.

(** ** What a significant comparison needs *)

(** X23.  A comparison is never flagged on degenerate data: when
    [statistical_significance] is set, both samples have at least two
    elements, the pooled standard error is not 0 and the two means differ;
    when [practical_significance] is set, both samples have at least two
    elements, the pooled standard deviation is not 0 and the two means
    differ. *)
Theorem significance_needs_spread_and_difference baseline optimized self
    comparison self' :
  validate_performance_comparison baseline optimized self
  = (Ok comparison, self') ->
  (statistical_significance comparison = true ->
   (2 <= length baseline)%nat /\ (2 <= length optimized)%nat
   /\ pooled_standard_error baseline optimized <> 0
   /\ mean (baseline_stats comparison) <> mean (optimized_stats comparison))
  /\ (practical_significance comparison = true ->
      (2 <= length baseline)%nat /\ (2 <= length optimized)%nat
      /\ pooled_standard_deviation baseline optimized <> 0
      /\ mean (baseline_stats comparison)
         <> mean (optimized_stats comparison)).
Proof.
  intros H. destruct (validate_inv _ _ _ _ _ H) as (_ & _ & -> & _).
  unfold comparison_of.
  cbn [statistical_significance practical_significance baseline_stats
       optimized_stats]. unfold summary_of at 1 2 3 4. cbn [mean].
  split; intros Hsig.
  - apply Rltb_true in Hsig. unfold SIGNIFICANCE_LEVEL in Hsig.
    pose proof Hsig as Hsig0. unfold ttest_of in Hsig.
    destruct (Z.ltb_spec (Py.len baseline) 2) as [|H1];
      [cbn in Hsig; lra|].
    destruct (Z.ltb_spec (Py.len optimized) 2) as [|H2];
      [cbn in Hsig; lra|].
    cbn [orb] in Hsig.
    destruct (Py.Reqb (pooled_standard_error baseline optimized) 0) eqn:E;
      [cbn in Hsig; lra|].
    apply Reqb_false in E. unfold Py.len in *.
    split; [lia|]. split; [lia|]. split; [exact E|].
    intros Hm. pose proof (equal_means_statistics _ _ Hm) as [Ht _].
    rewrite Ht in Hsig0. cbn [snd] in Hsig0. lra.
  - apply Rleb_true in Hsig. unfold MIN_EFFECT_SIZE in Hsig.
    unfold effect_of in Hsig.
    destruct (Z.ltb_spec (Py.len baseline) 2) as [|H1];
      [cbn in Hsig; rewrite Rabs_R0 in Hsig; lra|].
    destruct (Z.ltb_spec (Py.len optimized) 2) as [|H2];
      [cbn in Hsig; rewrite Rabs_R0 in Hsig; lra|].
    cbn [orb] in Hsig.
    destruct (Py.Reqb (pooled_standard_deviation baseline optimized) 0) eqn:E;
      [rewrite Rabs_R0 in Hsig; lra|].
    apply Reqb_false in E. unfold Py.len in *.
    split; [lia|]. split; [lia|]. split; [exact E|].
    intros Hm. rewrite Hm in Hsig.
    replace ((mean_of optimized - mean_of optimized)
             / pooled_standard_deviation baseline optimized)
      with 0 in Hsig by (field; exact E).
    rewrite Rabs_R0 in Hsig. lra.
Qed.

Lemma sqrt_2_bounds : 1 < sqrt 2 /\ sqrt 2 < 2.
Proof.
  pose proof (sqrt_sqrt 2 ltac:(lra)) as H.
  pose proof (sqrt_pos 2) as Hp. split; nra.
Qed.

Lemma separated_example_statistics :
  mean_of [101; 103] - mean_of [0; 2] = 101
  /\ pooled_standard_error [0; 2] [101; 103] = sqrt 2
  /\ pooled_standard_deviation [0; 2] [101; 103] = sqrt 2.
Proof.
  split; [unfold mean_of, Py.sum; simpl; lra|].
  unfold pooled_standard_error, pooled_standard_deviation.
  rewrite !stdev_of_sq by (simpl; lia).
  split; f_equal; unfold mean_of, statistics.ss, Py.sum, Py.len; simpl;
    lra.
Qed.

Lemma separated_example_flags :
  statistical_significance (comparison_of [0; 2] [101; 103]) = true
  /\ practical_significance (comparison_of [0; 2] [101; 103]) = true.
Proof.
  destruct separated_example_statistics as (Hm & Hse & Hsd).
  destruct sqrt_2_bounds as [Hlo Hhi].
  assert (Hq : 50 < 101 / sqrt 2).
  { apply (Rmult_lt_reg_r (sqrt 2)); [lra|].
    unfold Rdiv. rewrite Rmult_assoc, Rinv_l by lra. lra. }
  assert (Hl : forall x y z w : R,
             ((Py.len [x; y] <? 2)%Z || (Py.len [z; w] <? 2)%Z)%bool = false)
    by reflexivity.
  unfold comparison_of.
  cbn [statistical_significance practical_significance]. split.
  - apply Rltb_true. rewrite ttest_of_p_value.
    assert (Ht : fst (ttest_of [0; 2] [101; 103]) = 101 / sqrt 2).
    { unfold ttest_of. rewrite Hl, Hse, Hm.
      assert (E : Py.Reqb (sqrt 2) 0 = false) by (apply Reqb_false; lra).
      rewrite E. reflexivity. }
    rewrite Ht, Rabs_right by lra. unfold _norm_cdf.
    assert (E6 : Py.Rltb 6 (101 / sqrt 2) = true) by (apply Rltb_true; lra).
    rewrite E6. unfold SIGNIFICANCE_LEVEL. lra.
  - apply Rleb_true. unfold effect_of. rewrite Hl, Hsd, Hm.
    assert (E : Py.Reqb (sqrt 2) 0 = false) by (apply Reqb_false; lra).
    rewrite E, Rabs_right by lra. unfold MIN_EFFECT_SIZE. lra.
Qed.

Lemma significance_needs_spread_and_difference_witness :
  ((2 <= length [0; 2])%nat /\ (2 <= length [101; 103])%nat
   /\ pooled_standard_error [0; 2] [101; 103] <> 0
   /\ mean (baseline_stats (comparison_of [0; 2] [101; 103]))
      <> mean (optimized_stats (comparison_of [0; 2] [101; 103])))
  /\ ((2 <= length [0; 2])%nat /\ (2 <= length [101; 103])%nat
      /\ pooled_standard_deviation [0; 2] [101; 103] <> 0
      /\ mean (baseline_stats (comparison_of [0; 2] [101; 103]))
         <> mean (optimized_stats (comparison_of [0; 2] [101; 103]))).
Proof.
  destruct (significance_needs_spread_and_difference
              [0; 2] [101; 103] (__init__ true)
              (comparison_of [0; 2] [101; 103])
              (with_violations (__init__ true)
                 (violations_of [0; 2] [101; 103])))
    as [Hstat Hpract]; [apply validate_ok; discriminate|].
  destruct separated_example_flags as [Fs Fp].
  split; [exact (Hstat Fs)|exact (Hpract Fp)].
Defined.
